(** * express-maintenance-mode: the maintenance gate of [src/index.ts]

    A shallow embedding of the class [ExpressMaintenance] and of the request
    handler its [middleware] getter returns, followed by the properties of
    the request-routing and state-synchronisation logic.

    Conventions of the embedding.
    - The mutable and read-only fields of the class live in one record,
      [ExpressMaintenance]; a method is a function in a small state and
      exception monad [M] over the record and an environment [Env].
    - The environment holds what the handler does not own: the system clock
      (an oracle of successive readings), the external store the two
      optional collaborator functions act on, and the log of the calls made
      to these collaborators.
    - An awaited collaborator call is modelled as resolving; a rejected
      promise is outside this development.
    - [undefined] is [None]; a JavaScript [number] holding a status code, a
      TTL or a timestamp is an integer of [Z]. *)

From Stdlib Require Import ZArith String Ascii List Bool Lia.
Import ListNotations.
Local Open Scope string_scope.
Local Open Scope Z_scope.

(** ** Strings *)

(** [String.prototype.includes]: [sub] occurs in [s] as a substring. *)
Fixpoint includes (s sub : string) : bool :=
  String.prefix sub s
  || match s with
     | EmptyString => false
     | String _ t => includes t sub
     end.

(** Express derives [request.path] from [request.url]: the part before the
    first question mark. *)
Fixpoint pathname (u : string) : string :=
  match u with
  | EmptyString => EmptyString
  | String c t => if Ascii.eqb c "?" then EmptyString else String c (pathname t)
  end.

(** The query string of a URL: from the first question mark on. *)
Fixpoint search (u : string) : string :=
  match u with
  | EmptyString => EmptyString
  | String c t => if Ascii.eqb c "?" then u else search t
  end.

(** ** Data model *)

(** [enum ServerMode], with the string each member stands for. *)
Inductive ServerMode : Type := default | maintenance.

Definition ServerMode_toString (mode : ServerMode) : string :=
  match mode with
  | default => "default"
  | maintenance => "maintenance"
  end.

Definition ServerMode_eqb (a b : ServerMode) : bool :=
  match a, b with
  | default, default | maintenance, maintenance => true
  | _, _ => false
  end.

(** [interface MaintenanceResponseOptions<MaintenanceResponseBody>]. *)
Module MaintenanceResponseOptions.
Record t (B : Type) : Type := make { statusCode : Z; body : B }.
Arguments make {B} _ _.
Arguments statusCode {B} _.
Arguments body {B} _.
End MaintenanceResponseOptions.

(** [interface MaintenanceState<MaintenanceResponseBody>]. The options are
    optional at run time: the class field they are copied from is
    [undefined] until a body is posted. *)
Module MaintenanceState.
Record t (B : Type) : Type := make {
  currentServerMode : ServerMode;
  maintenanceResponseOptions : option (MaintenanceResponseOptions.t B)
}.
Arguments make {B} _ _.
Arguments currentServerMode {B} _.
Arguments maintenanceResponseOptions {B} _.
End MaintenanceState.

(** A value of [request.query]: absent, a string, or an array or nested
    object (which is never strictly equal to a string). *)
Inductive QueryValue : Type :=
| QUndefined
| QString (s : string)
| QStructured.

(** The fields of an Express [Request] the handler reads: [url] is the raw
    request target, [query_accessKey] is [request.query.accessKey], and
    [body] is the parsed body, [None] when it is [undefined] or [null]. *)
Module Request.
Record t (B : Type) : Type := make {
  method : string;
  url : string;
  query_accessKey : QueryValue;
  body : option (MaintenanceResponseOptions.t B)
}.
Arguments make {B} _ _ _ _.
Arguments method {B} _.
Arguments url {B} _.
Arguments query_accessKey {B} _.
Arguments body {B} _.

Definition path {B : Type} (request : t B) : string := pathname (url request).
End Request.

(** What [response.status(..).json(..)] is given. *)
Inductive Json (B : Type) : Type :=
| JsonBody (b : B)
| JsonMessage (message : string)
| JsonModeReport (message : string)
                 (maintenanceResponseOptions : option (MaintenanceResponseOptions.t B)).
Arguments JsonBody {B} _.
Arguments JsonMessage {B} _.
Arguments JsonModeReport {B} _ _.

(** What the handler did with the request: it sent a response, or it called
    [next()]. *)
Inductive Handled (B : Type) : Type :=
| Responded (status : Z) (json : Json B)
| NextCalled.
Arguments Responded {B} _ _.
Arguments NextCalled {B}.

(** A call to one of the two collaborators. *)
Inductive Call (B : Type) : Type :=
| GetExternal
| SetExternal (state : MaintenanceState.t B).
Arguments GetExternal {B}.
Arguments SetExternal {B} _.

Definition isGetExternal {B : Type} (c : Call B) : bool :=
  match c with GetExternal => true | SetExternal _ => false end.

Definition isSetExternal {B : Type} (c : Call B) : bool :=
  match c with GetExternal => false | SetExternal _ => true end.

(** The collaborators, as functions on the external store [S]. *)
Definition GetExternalMaintenanceStateFunction (B S : Type) : Type :=
  S -> option (MaintenanceState.t B) * S.

Definition SetExternalMaintenanceStateFunction (B S : Type) : Type :=
  MaintenanceState.t B -> S -> S.

(** [interface ExpressMaintenanceOptions]. *)
Module ExpressMaintenanceOptions.
Record t (B S : Type) : Type := make {
  url : option string;
  apiBasePath : option string;
  accessKey : option string;
  localMaintenanceStateTTL : option Z;
  getExternalMaintenanceState : option (GetExternalMaintenanceStateFunction B S);
  setExternalMaintenanceState : option (SetExternalMaintenanceStateFunction B S)
}.
Arguments make {B S} _ _ _ _ _ _.
Arguments url {B S} _.
Arguments apiBasePath {B S} _.
Arguments accessKey {B S} _.
Arguments localMaintenanceStateTTL {B S} _.
Arguments getExternalMaintenanceState {B S} _.
Arguments setExternalMaintenanceState {B S} _.
End ExpressMaintenanceOptions.

(** The fields of [class ExpressMaintenance]. *)
Record ExpressMaintenance (B S : Type) : Type := mkExpressMaintenance {
  url : string;
  apiBasePath : string;
  accessKey : option string;
  localMaintenanceStateTTL : Z;
  getExternalMaintenanceState : option (GetExternalMaintenanceStateFunction B S);
  setExternalMaintenanceState : option (SetExternalMaintenanceStateFunction B S);
  lastStateUpdateTimestamp : Z;
  currentServerMode : ServerMode;
  maintenanceResponseOptions : option (MaintenanceResponseOptions.t B)
}.
Arguments mkExpressMaintenance {B S} _ _ _ _ _ _ _ _ _.
Arguments url {B S} _.
Arguments apiBasePath {B S} _.
Arguments accessKey {B S} _.
Arguments localMaintenanceStateTTL {B S} _.
Arguments getExternalMaintenanceState {B S} _.
Arguments setExternalMaintenanceState {B S} _.
Arguments lastStateUpdateTimestamp {B S} _.
Arguments currentServerMode {B S} _.
Arguments maintenanceResponseOptions {B S} _.

(** ** Environment and monad *)

(** The clock answers its [n]-th reading with [clock n]; [reads] counts the
    readings made so far. *)
Record Env (B S : Type) : Type := mkEnv {
  clock : nat -> Z;
  reads : nat;
  store : S;
  calls : list (Call B)
}.
Arguments mkEnv {B S} _ _ _ _.
Arguments clock {B S} _ _.
Arguments reads {B S} _.
Arguments store {B S} _.
Arguments calls {B S} _.

Record Machine (B S : Type) : Type := mkMachine {
  this : ExpressMaintenance B S;
  env : Env B S
}.
Arguments mkMachine {B S} _ _.
Arguments this {B S} _.
Arguments env {B S} _.

Inductive Error : Type := TypeError | SyntaxError.

Inductive Completion (A : Type) : Type :=
| Normal (a : A)
| Throw (e : Error).
Arguments Normal {A} _.
Arguments Throw {A} _.

Definition M (B S A : Type) : Type := Machine B S -> Completion A * Machine B S.

Definition ret {B S A : Type} (a : A) : M B S A := fun m => (Normal a, m).

Definition throw {B S A : Type} (e : Error) : M B S A := fun m => (Throw e, m).

Definition bind {B S A A' : Type} (c : M B S A) (k : A -> M B S A') : M B S A' :=
  fun m =>
    match c m with
    | (Normal a, m') => k a m'
    | (Throw e, m') => (Throw e, m')
    end.

Declare Scope gate_scope.
Delimit Scope gate_scope with gate.
Notation "x <- c ;; k" := (bind c (fun x => k))
  (at level 100, c at next level, right associativity) : gate_scope.
Notation "c ;; k" := (bind c (fun _ => k))
  (at level 100, right associativity) : gate_scope.
Local Open Scope gate_scope.

(** The number of reads ([GetExternal]) and of writes ([SetExternal]) in a
    call log. *)
Definition readCount {B : Type} (log : list (Call B)) : nat :=
  List.length (List.filter isGetExternal log).

Definition writeCount {B : Type} (log : list (Call B)) : nat :=
  List.length (List.filter isSetExternal log).

Section Gate.

Context {B S : Type}.

(** [RegExp_test source s] is [new RegExp(source).test(s)]; [None] when
    the constructor rejects [source] with a [SyntaxError]. *)
Variable RegExp_test : string -> string -> option bool.

(** *** Primitive actions *)

Definition getThis : M B S (ExpressMaintenance B S) := fun m => (Normal (this m), m).

Definition setThis (g : ExpressMaintenance B S) : M B S unit :=
  fun m => (Normal tt, mkMachine g (env m)).

(** [Date.now()] and [new Date()]: one reading of the clock. *)
Definition Date_now : M B S Z :=
  fun m =>
    let e := env m in
    (Normal (clock e (reads e)),
     mkMachine (this m) (mkEnv (clock e) (Datatypes.S (reads e)) (store e) (calls e))).

(** [await f()] for the read collaborator. *)
Definition callGetExternal (f : GetExternalMaintenanceStateFunction B S)
  : M B S (option (MaintenanceState.t B)) :=
  fun m =>
    let e := env m in
    let (r, s') := f (store e) in
    (Normal r,
     mkMachine (this m) (mkEnv (clock e) (reads e) s' (calls e ++ [GetExternal]))).

(** [await f(state)] for the write collaborator. *)
Definition callSetExternal (f : SetExternalMaintenanceStateFunction B S)
           (state : MaintenanceState.t B) : M B S unit :=
  fun m =>
    let e := env m in
    (Normal tt,
     mkMachine (this m)
       (mkEnv (clock e) (reads e) (f state (store e)) (calls e ++ [SetExternal state]))).

(** *** Field updates *)

Definition with_currentServerMode (g : ExpressMaintenance B S) (mode : ServerMode)
  : ExpressMaintenance B S :=
  mkExpressMaintenance (url g) (apiBasePath g) (accessKey g)
    (localMaintenanceStateTTL g) (getExternalMaintenanceState g)
    (setExternalMaintenanceState g) (lastStateUpdateTimestamp g)
    mode (maintenanceResponseOptions g).

Definition with_maintenanceResponseOptions (g : ExpressMaintenance B S)
           (o : option (MaintenanceResponseOptions.t B))
  : ExpressMaintenance B S :=
  mkExpressMaintenance (url g) (apiBasePath g) (accessKey g)
    (localMaintenanceStateTTL g) (getExternalMaintenanceState g)
    (setExternalMaintenanceState g) (lastStateUpdateTimestamp g)
    (currentServerMode g) o.

Definition with_lastStateUpdateTimestamp (g : ExpressMaintenance B S) (t : Z)
  : ExpressMaintenance B S :=
  mkExpressMaintenance (url g) (apiBasePath g) (accessKey g)
    (localMaintenanceStateTTL g) (getExternalMaintenanceState g)
    (setExternalMaintenanceState g) t
    (currentServerMode g) (maintenanceResponseOptions g).

(** *** The constructor (lines 18-29) *)

Definition orElse {A : Type} (o : option A) (d : A) : A :=
  match o with Some a => a | None => d end.

Definition constructor (options : ExpressMaintenanceOptions.t B S) (now : Z)
  : ExpressMaintenance B S :=
  mkExpressMaintenance
    (orElse (ExpressMaintenanceOptions.url options) "/maintenance")
    (orElse (ExpressMaintenanceOptions.apiBasePath options) "/api")
    (ExpressMaintenanceOptions.accessKey options)
    (orElse (ExpressMaintenanceOptions.localMaintenanceStateTTL options) 60000)
    (ExpressMaintenanceOptions.getExternalMaintenanceState options)
    (ExpressMaintenanceOptions.setExternalMaintenanceState options)
    now
    default
    None.

(** *** Private methods (lines 110-135) *)

Definition isItTimeToUpdateLocalMaintenanceState : M B S bool :=
  g <- getThis ;;
  now <- Date_now ;;
  ret (lastStateUpdateTimestamp g + localMaintenanceStateTTL g <? now).

Definition isServerInMaintenanceMode (g : ExpressMaintenance B S) : bool :=
  ServerMode_eqb (currentServerMode g) maintenance.

Definition isApiRequest (g : ExpressMaintenance B S) (request : Request.t B) : bool :=
  includes (Request.url request) (apiBasePath g).

Definition isMaintenanceRequest (g : ExpressMaintenance B S) (request : Request.t B) : option bool :=
  RegExp_test (url g ++ "$") (Request.path request).

Definition getLocalMaintenanceState (g : ExpressMaintenance B S) : MaintenanceState.t B :=
  MaintenanceState.make (currentServerMode g) (maintenanceResponseOptions g).

(** *** [updateLocalMaintenanceState] (lines 90-108) *)

Definition updateLocalMaintenanceState : M B S unit :=
  g <- getThis ;;
  match getExternalMaintenanceState g with
  | None => ret tt
  | Some getExternal =>
      isTime <- isItTimeToUpdateLocalMaintenanceState ;;
      if isTime then
        externalMaintenanceState <- callGetExternal getExternal ;;
        match externalMaintenanceState with
        | None => ret tt
        | Some state =>
            g <- getThis ;;
            setThis (with_currentServerMode g
                       (MaintenanceState.currentServerMode state)) ;;
            g <- getThis ;;
            setThis (with_maintenanceResponseOptions g
                       (MaintenanceState.maintenanceResponseOptions state)) ;;
            now <- Date_now ;;
            g <- getThis ;;
            setThis (with_lastStateUpdateTimestamp g now)
        end
      else ret tt
  end.

(** *** The request handler (lines 32-87) *)

(** JavaScript truthiness of an optional string. *)
Definition truthy (o : option string) : bool :=
  match o with
  | Some s => negb (String.eqb s "")
  | None => false
  end.

(** [accessKey !== this.accessKey]. *)
Definition strictNotEqual (q : QueryValue) (key : option string) : bool :=
  match q, key with
  | QString s, Some k => negb (String.eqb s k)
  | QUndefined, None => false
  | _, _ => true
  end.

Definition modeMessage (g : ExpressMaintenance B S) : string :=
  "Server in " ++ ServerMode_toString (currentServerMode g) ++ " mode now".

(** Lines 80-83. *)
Definition respondWithState : M B S (Handled B) :=
  g <- getThis ;;
  ret (Responded 200 (JsonModeReport (modeMessage g) (maintenanceResponseOptions g))).

(** Lines 58-62 and 67-71. *)
Definition propagate : M B S unit :=
  g <- getThis ;;
  match setExternalMaintenanceState g with
  | Some setExternal => callSetExternal setExternal (getLocalMaintenanceState g)
  | None => ret tt
  end.

(** Lines 36-38: the blocked response. Reading [statusCode] off options
    that were never set throws. *)
Definition blockedResponse (g : ExpressMaintenance B S) : Completion (Handled B) :=
  match maintenanceResponseOptions g with
  | None => Throw TypeError
  | Some o =>
      Normal (Responded (MaintenanceResponseOptions.statusCode o)
                        (JsonBody (MaintenanceResponseOptions.body o)))
  end.

(** Line 43: the guard of the 401 response. *)
Definition keyRejected (g : ExpressMaintenance B S) (request : Request.t B) : bool :=
  truthy (accessKey g)
  && strictNotEqual (Request.query_accessKey request) (accessKey g).

(** Lines 35-86: what the handler does once the local state is refreshed. *)
Definition route (request : Request.t B) : M B S (Handled B) :=
  g <- getThis ;;
  if isServerInMaintenanceMode g && isApiRequest g request then
    fun m => (blockedResponse g, m)
  else
    match isMaintenanceRequest g request with
    | None => throw SyntaxError
    | Some false => ret NextCalled
    | Some true =>
        if keyRejected g request then
          ret (Responded 401 (JsonMessage "You not authorized to perform this action"))
        else if String.eqb (Request.method request) "GET" then
          ret (Responded 200 (JsonMessage (modeMessage g)))
        else if String.eqb (Request.method request) "POST" then
          setThis (with_currentServerMode g maintenance) ;;
          g <- getThis ;;
          setThis (with_maintenanceResponseOptions g
                     (match Request.body request with
                      | Some o => Some o
                      | None => maintenanceResponseOptions g
                      end)) ;;
          propagate ;;
          respondWithState
        else if String.eqb (Request.method request) "DELETE" then
          setThis (with_currentServerMode g default) ;;
          propagate ;;
          respondWithState
        else
          ret (Responded 405
                 (JsonMessage (Request.method request ++ " is not allowed for this endpoint")))
    end.

Definition middleware (request : Request.t B) : M B S (Handled B) :=
  updateLocalMaintenanceState ;;
  route request.

End Gate.

(** ** Running examples *)

(** [String.prototype.endsWith]. *)
Fixpoint endsWith (s suffix : string) : bool :=
  String.eqb s suffix
  || match s with
     | EmptyString => false
     | String _ t => endsWith t suffix
     end.

(** The syntax characters of a regular-expression pattern. *)
Definition isSyntaxCharacter (c : ascii) : bool :=
  includes "^$\.*+?()[]{}|" (String c EmptyString).

(** [literalPattern source] is [Some lit] when [source] is [lit] followed by
    the end anchor and [lit] has no syntax character, so that the pattern
    matches exactly the strings that end with [lit]. *)
Fixpoint literalPattern (source : string) : option string :=
  match source with
  | EmptyString => None
  | String c t =>
      if Ascii.eqb c "$" then
        match t with EmptyString => Some EmptyString | _ => None end
      else if isSyntaxCharacter c then None
      else option_map (String c) (literalPattern t)
  end.

(** [RegExp.prototype.test] on the patterns [literalPattern] recognises,
    which are the ones the examples use; other patterns are not covered by
    this instance. *)
Definition RegExp_test_literal (source s : string) : option bool :=
  option_map (endsWith s) (literalPattern source).

Module Examples.

(** Response bodies are objects with string members. *)
Definition Body : Type := list (string * string).

(** The external store holds the state last written, if any; reading
    returns it. *)
Definition SharedStore : Type := option (MaintenanceState.t Body).

Definition readStore : GetExternalMaintenanceStateFunction Body SharedStore :=
  fun s => (s, s).

Definition writeStore : SetExternalMaintenanceStateFunction Body SharedStore :=
  fun state _ => Some state.

Definition down : MaintenanceResponseOptions.t Body :=
  MaintenanceResponseOptions.make 503 [("msg", "down")].

Definition upgrading : MaintenanceResponseOptions.t Body :=
  MaintenanceResponseOptions.make 500 [("msg", "upgrading")].

(** A gate with the default paths and TTL, last refreshed at time 0. *)
Definition gate (key : option string) (reader writer : bool)
           (mode : ServerMode) (options : option (MaintenanceResponseOptions.t Body))
  : ExpressMaintenance Body SharedStore :=
  with_maintenanceResponseOptions
    (with_currentServerMode
       (constructor
          (ExpressMaintenanceOptions.make None None key None
             (if reader then Some readStore else None)
             (if writer then Some writeStore else None))
          0)
       mode)
    options.

(** An environment whose clock reads [now] at every reading. *)
Definition world (now : Z) (shared : SharedStore) : Env Body SharedStore :=
  mkEnv (fun _ => now) 0%nat shared [].

Definition handle (request : Request.t Body) (g : ExpressMaintenance Body SharedStore)
           (e : Env Body SharedStore)
  : Completion (Handled Body) * Machine Body SharedStore :=
  middleware RegExp_test_literal request (mkMachine g e).

(** Requests. *)
Definition send (method url : string) : Request.t Body :=
  Request.make method url QUndefined None.

Definition sendBody (method url : string) (o : MaintenanceResponseOptions.t Body)
  : Request.t Body :=
  Request.make method url QUndefined (Some o).

Definition postWithKey : Request.t Body :=
  Request.make "POST" "/maintenance?accessKey=k" (QString "k") (Some down).

Definition getWithWrongKey : Request.t Body :=
  Request.make "GET" "/maintenance?accessKey=guess" (QString "guess") None.

(** What another replica may have left in the shared store. *)
Definition storedDefault : SharedStore := Some (MaintenanceState.make default None).

Definition storedMaintenance : SharedStore :=
  Some (MaintenanceState.make maintenance (Some down)).

(** A gate in maintenance mode with the given paths, without collaborators. *)
Definition activeGateAt (managementPath basePath : option string)
  : ExpressMaintenance Body SharedStore :=
  with_maintenanceResponseOptions
    (with_currentServerMode
       (constructor
          (ExpressMaintenanceOptions.make managementPath basePath None None None None)
          0)
       maintenance)
    (Some down).

(** Options that name a write function only. *)
Definition writerOnly : ExpressMaintenanceOptions.t Body SharedStore :=
  ExpressMaintenanceOptions.make None None None None None (Some writeStore).

End Examples.

(** ** Substrings, paths and query strings *)

Lemma prefix_app (p a b : string) :
  String.prefix p a = true -> String.prefix p (a ++ b) = true.
Proof.
  revert a; induction p as [|c p IH]; intros a H.
  - destruct (a ++ b); reflexivity.
  - destruct a as [|d a]; simpl in *; [discriminate|].
    destruct (ascii_dec c d); [auto | discriminate].
Qed.

Lemma includes_app_l (a b p : string) :
  includes a p = true -> includes (a ++ b) p = true.
Proof.
  induction a as [|c a IH]; simpl; intros H.
  - rewrite orb_false_r in H. destruct p; [|discriminate].
    destruct b; reflexivity.
  - apply orb_true_iff in H. apply orb_true_iff. destruct H as [H|H].
    + left. exact (prefix_app p (String c a) b H).
    + right. auto.
Qed.

Lemma includes_app_r (a b p : string) :
  includes b p = true -> includes (a ++ b) p = true.
Proof.
  induction a as [|c a IH]; simpl; intros H; [exact H|].
  apply orb_true_iff. right. auto.
Qed.

Lemma pathname_search (u : string) : u = pathname u ++ search u.
Proof.
  induction u as [|c u IH]; [reflexivity|]. simpl.
  destruct (Ascii.eqb c "?"); [reflexivity|]. simpl. congruence.
Qed.

Lemma includes_pathname (u p : string) :
  includes (pathname u) p = true -> includes u p = true.
Proof.
  intros H. rewrite (pathname_search u). now apply includes_app_l.
Qed.

Lemma includes_search (u p : string) :
  includes (search u) p = true -> includes u p = true.
Proof.
  intros H. rewrite (pathname_search u). now apply includes_app_r.
Qed.

(** ** Call logs *)

Lemma readCount_app {B : Type} (l l' : list (Call B)) :
  readCount (l ++ l') = (readCount l + readCount l')%nat.
Proof. unfold readCount. now rewrite filter_app, length_app. Qed.

Lemma writeCount_app {B : Type} (l l' : list (Call B)) :
  writeCount (l ++ l') = (writeCount l + writeCount l')%nat.
Proof. unfold writeCount. now rewrite filter_app, length_app. Qed.

Section Properties.

Context {B S : Type}.
Variable RegExp_test : string -> string -> option bool.

(** ** The refresh step *)

(** The four ways [updateLocalMaintenanceState] can run. *)

Lemma update_not_configured (m : Machine B S) :
  getExternalMaintenanceState (this m) = None ->
  updateLocalMaintenanceState m = (Normal tt, m).
Proof.
  intros H. unfold updateLocalMaintenanceState, bind, getThis, ret.
  rewrite H. reflexivity.
Qed.

Lemma update_not_due (m : Machine B S) getExternal :
  getExternalMaintenanceState (this m) = Some getExternal ->
  (lastStateUpdateTimestamp (this m) + localMaintenanceStateTTL (this m)
   <? clock (env m) (reads (env m))) = false ->
  updateLocalMaintenanceState m =
  (Normal tt,
   mkMachine (this m)
     (mkEnv (clock (env m)) (Datatypes.S (reads (env m))) (store (env m)) (calls (env m)))).
Proof.
  intros H D.
  unfold updateLocalMaintenanceState, isItTimeToUpdateLocalMaintenanceState,
    bind, getThis, Date_now, ret.
  rewrite H. simpl. rewrite D. reflexivity.
Qed.

Lemma update_empty (m : Machine B S) getExternal store' :
  getExternalMaintenanceState (this m) = Some getExternal ->
  (lastStateUpdateTimestamp (this m) + localMaintenanceStateTTL (this m)
   <? clock (env m) (reads (env m))) = true ->
  getExternal (store (env m)) = (None, store') ->
  updateLocalMaintenanceState m =
  (Normal tt,
   mkMachine (this m)
     (mkEnv (clock (env m)) (Datatypes.S (reads (env m))) store'
            (calls (env m) ++ [GetExternal]))).
Proof.
  intros H D E.
  unfold updateLocalMaintenanceState, isItTimeToUpdateLocalMaintenanceState,
    bind, getThis, Date_now, callGetExternal, ret.
  rewrite H. simpl. rewrite D. simpl. rewrite E. reflexivity.
Qed.

Lemma update_applied (m : Machine B S) getExternal state store' :
  getExternalMaintenanceState (this m) = Some getExternal ->
  (lastStateUpdateTimestamp (this m) + localMaintenanceStateTTL (this m)
   <? clock (env m) (reads (env m))) = true ->
  getExternal (store (env m)) = (Some state, store') ->
  updateLocalMaintenanceState m =
  (Normal tt,
   mkMachine
     (mkExpressMaintenance (url (this m)) (apiBasePath (this m)) (accessKey (this m))
        (localMaintenanceStateTTL (this m)) (getExternalMaintenanceState (this m))
        (setExternalMaintenanceState (this m))
        (clock (env m) (Datatypes.S (reads (env m))))
        (MaintenanceState.currentServerMode state)
        (MaintenanceState.maintenanceResponseOptions state))
     (mkEnv (clock (env m)) (Datatypes.S (Datatypes.S (reads (env m)))) store'
            (calls (env m) ++ [GetExternal]))).
Proof.
  intros H D E.
  unfold updateLocalMaintenanceState, isItTimeToUpdateLocalMaintenanceState,
    bind, getThis, setThis, Date_now, callGetExternal, ret,
    with_lastStateUpdateTimestamp, with_maintenanceResponseOptions,
    with_currentServerMode.
  rewrite H. simpl. rewrite D. simpl. rewrite E. simpl. rewrite ?H. reflexivity.
Qed.

(** Case analysis on a run of the refresh step. *)
Ltac update_cases m :=
  let G := fresh "G" in
  let D := fresh "D" in
  let E := fresh "E" in
  destruct (getExternalMaintenanceState (this m)) as [?getExternal|] eqn:G;
  [ destruct (lastStateUpdateTimestamp (this m) + localMaintenanceStateTTL (this m)
              <? clock (env m) (reads (env m))) eqn:D;
    [ destruct (getExternal (store (env m))) as [[?state|] ?store'] eqn:E;
      [ rewrite (update_applied m _ _ _ G D E)
      | rewrite (update_empty m _ _ G D E) ]
    | rewrite (update_not_due m _ G D) ]
  | rewrite (update_not_configured m G) ].

Lemma update_normal (m : Machine B S) :
  fst (updateLocalMaintenanceState m) = Normal tt.
Proof. update_cases m; reflexivity. Qed.

(** The refresh step leaves the configuration alone. *)
Lemma update_config (m : Machine B S) :
  let g' := this (snd (updateLocalMaintenanceState m)) in
  url g' = url (this m) /\ apiBasePath g' = apiBasePath (this m) /\
  accessKey g' = accessKey (this m) /\
  localMaintenanceStateTTL g' = localMaintenanceStateTTL (this m) /\
  getExternalMaintenanceState g' = getExternalMaintenanceState (this m) /\
  setExternalMaintenanceState g' = setExternalMaintenanceState (this m).
Proof. update_cases m; simpl; repeat split; auto. Qed.

(** The refresh step never writes to the external store. *)
Lemma update_writeCount (m : Machine B S) :
  writeCount (calls (env (snd (updateLocalMaintenanceState m))))
  = writeCount (calls (env m)).
Proof.
  update_cases m; simpl; try reflexivity;
    rewrite writeCount_app; unfold writeCount; simpl; lia.
Qed.

(** The handler is the refresh step followed by the routing. *)
Lemma middleware_route (request : Request.t B) (m : Machine B S) :
  middleware RegExp_test request m
  = route RegExp_test request (snd (updateLocalMaintenanceState m)).
Proof.
  unfold middleware, bind.
  pose proof (update_normal m) as N.
  destruct (updateLocalMaintenanceState m) as [c m1]. simpl in *.
  subst c. reflexivity.
Qed.

(** What [propagate] leaves behind: the state written to the store and
    logged when a write collaborator is configured, nothing otherwise. *)
Lemma propagate_run (g : ExpressMaintenance B S) (e : Env B S) :
  propagate (mkMachine g e) =
  (Normal tt,
   mkMachine g
     match setExternalMaintenanceState g with
     | Some setExternal =>
         mkEnv (clock e) (reads e)
               (setExternal (getLocalMaintenanceState g) (store e))
               (calls e ++ [SetExternal (getLocalMaintenanceState g)])
     | None => e
     end).
Proof.
  unfold propagate, bind, getThis, callSetExternal, ret. simpl.
  destruct (setExternalMaintenanceState g); reflexivity.
Qed.

(** The routing, branch by branch. *)
Lemma route_run (request : Request.t B) (m : Machine B S) :
  route RegExp_test request m =
  let g := this m in
  if isServerInMaintenanceMode g && isApiRequest g request then
    (blockedResponse g, m)
  else
    match isMaintenanceRequest RegExp_test g request with
    | None => (Throw SyntaxError, m)
    | Some false => (Normal NextCalled, m)
    | Some true =>
        if keyRejected g request then
          (Normal (Responded 401 (JsonMessage "You not authorized to perform this action")), m)
        else if String.eqb (Request.method request) "GET" then
          (Normal (Responded 200 (JsonMessage (modeMessage g))), m)
        else if String.eqb (Request.method request) "POST" then
          let g' :=
            with_maintenanceResponseOptions (with_currentServerMode g maintenance)
              (match Request.body request with
               | Some o => Some o
               | None => maintenanceResponseOptions g
               end) in
          (Normal (Responded 200 (JsonModeReport (modeMessage g')
                                                 (maintenanceResponseOptions g'))),
           snd (propagate (mkMachine g' (env m))))
        else if String.eqb (Request.method request) "DELETE" then
          let g' := with_currentServerMode g default in
          (Normal (Responded 200 (JsonModeReport (modeMessage g')
                                                 (maintenanceResponseOptions g'))),
           snd (propagate (mkMachine g' (env m))))
        else
          (Normal (Responded 405
                     (JsonMessage (Request.method request
                                   ++ " is not allowed for this endpoint"))), m)
    end.
Proof.
  unfold route at 1. unfold bind at 1. unfold getThis at 1. cbv zeta.
  destruct (isServerInMaintenanceMode (this m) && isApiRequest (this m) request);
    [reflexivity|].
  destruct (isMaintenanceRequest RegExp_test (this m) request) as [[|]|];
    [|reflexivity|reflexivity].
  destruct (keyRejected (this m) request); [reflexivity|].
  destruct (String.eqb (Request.method request) "GET"); [reflexivity|].
  destruct (String.eqb (Request.method request) "POST").
  - unfold bind, setThis, getThis, respondWithState, ret. simpl.
    rewrite propagate_run. reflexivity.
  - destruct (String.eqb (Request.method request) "DELETE"); [|reflexivity].
    unfold bind, setThis, getThis, respondWithState, ret. simpl.
    rewrite propagate_run. reflexivity.
Qed.

(** The routing never reads the external store, and never touches the
    time of the last refresh nor the configuration of the refresh. *)
Lemma route_frame (request : Request.t B) (m : Machine B S) :
  let m' := snd (route RegExp_test request m) in
  readCount (calls (env m')) = readCount (calls (env m)) /\
  lastStateUpdateTimestamp (this m') = lastStateUpdateTimestamp (this m) /\
  localMaintenanceStateTTL (this m') = localMaintenanceStateTTL (this m) /\
  getExternalMaintenanceState (this m') = getExternalMaintenanceState (this m).
Proof.
  rewrite route_run. cbv zeta.
  destruct (isServerInMaintenanceMode (this m) && isApiRequest (this m) request);
    [simpl; auto|].
  destruct (isMaintenanceRequest RegExp_test (this m) request) as [[|]|];
    [|simpl; auto|simpl; auto].
  destruct (keyRejected (this m) request); [simpl; auto|].
  destruct (String.eqb (Request.method request) "GET"); [simpl; auto|].
  destruct (String.eqb (Request.method request) "POST");
    [|destruct (String.eqb (Request.method request) "DELETE"); [|simpl; auto]];
    rewrite propagate_run; simpl;
    destruct (setExternalMaintenanceState (this m)); simpl;
    rewrite ?readCount_app; unfold readCount; simpl; repeat split; auto; lia.
Qed.

(** How many reads of the external store the refresh step makes. *)
Lemma update_readCount (m : Machine B S) :
  readCount (calls (env (snd (updateLocalMaintenanceState m)))) =
  match getExternalMaintenanceState (this m) with
  | Some _ =>
      if lastStateUpdateTimestamp (this m) + localMaintenanceStateTTL (this m)
         <? clock (env m) (reads (env m))
      then Datatypes.S (readCount (calls (env m)))
      else readCount (calls (env m))
  | None => readCount (calls (env m))
  end.
Proof.
  update_cases m; simpl; try reflexivity;
    rewrite readCount_app; unfold readCount; simpl; lia.
Qed.

(** The three tests the routing makes on a request read the configuration
    only, so the refresh step does not change their answers. *)
Lemma update_tests (request : Request.t B) (m : Machine B S) :
  let g1 := this (snd (updateLocalMaintenanceState m)) in
  isApiRequest g1 request = isApiRequest (this m) request
  /\ isMaintenanceRequest RegExp_test g1 request
     = isMaintenanceRequest RegExp_test (this m) request
  /\ keyRejected g1 request = keyRejected (this m) request.
Proof.
  destruct (update_config m) as (Hu & Hp & Hk & _). cbv zeta in *.
  unfold isApiRequest, isMaintenanceRequest, keyRejected.
  rewrite Hu, Hp, Hk. auto.
Qed.

(** When the refresh step applies no external state (no read function, a
    refresh that is not due, or an empty answer), the local state is
    untouched. *)
Lemma update_nothing_applied (m : Machine B S) :
  (forall getExternal,
      getExternalMaintenanceState (this m) = Some getExternal ->
      lastStateUpdateTimestamp (this m) + localMaintenanceStateTTL (this m)
      < clock (env m) (reads (env m)) ->
      fst (getExternal (store (env m))) = None) ->
  this (snd (updateLocalMaintenanceState m)) = this m.
Proof.
  intros H. update_cases m; try reflexivity.
  apply Z.ltb_lt in D. specialize (H _ eq_refl D). rewrite E in H. discriminate.
Qed.

(** A management request that gets past the blocking check and the key
    check: the three verbs. *)
Lemma GET_run (request : Request.t B) (m : Machine B S) :
  let m1 := snd (updateLocalMaintenanceState m) in
  isServerInMaintenanceMode (this m1) && isApiRequest (this m) request = false ->
  isMaintenanceRequest RegExp_test (this m) request = Some true ->
  keyRejected (this m) request = false ->
  Request.method request = "GET" ->
  middleware RegExp_test request m
  = (Normal (Responded 200 (JsonMessage (modeMessage (this m1)))), m1).
Proof.
  intros m1 Hb Hm Hk Hv. rewrite middleware_route, route_run. fold m1. cbv zeta.
  destruct (update_tests request m) as (Ta & Tm & Tk). cbv zeta in Ta, Tm, Tk.
  fold m1 in Ta, Tm, Tk. rewrite Ta, Tm, Tk, Hb, Hm, Hk, Hv. reflexivity.
Qed.

Lemma POST_run (request : Request.t B) (m : Machine B S) :
  let m1 := snd (updateLocalMaintenanceState m) in
  let g' :=
    with_maintenanceResponseOptions (with_currentServerMode (this m1) maintenance)
      (match Request.body request with
       | Some o => Some o
       | None => maintenanceResponseOptions (this m1)
       end) in
  isServerInMaintenanceMode (this m1) && isApiRequest (this m) request = false ->
  isMaintenanceRequest RegExp_test (this m) request = Some true ->
  keyRejected (this m) request = false ->
  Request.method request = "POST" ->
  middleware RegExp_test request m
  = (Normal (Responded 200 (JsonModeReport "Server in maintenance mode now"
                                           (maintenanceResponseOptions g'))),
     snd (propagate (mkMachine g' (env m1)))).
Proof.
  intros m1 g' Hb Hm Hk Hv. rewrite middleware_route, route_run. fold m1. cbv zeta.
  destruct (update_tests request m) as (Ta & Tm & Tk). cbv zeta in Ta, Tm, Tk.
  fold m1 in Ta, Tm, Tk. rewrite Ta, Tm, Tk, Hb, Hm, Hk, Hv. reflexivity.
Qed.

Lemma DELETE_run (request : Request.t B) (m : Machine B S) :
  let m1 := snd (updateLocalMaintenanceState m) in
  let g' := with_currentServerMode (this m1) default in
  isServerInMaintenanceMode (this m1) && isApiRequest (this m) request = false ->
  isMaintenanceRequest RegExp_test (this m) request = Some true ->
  keyRejected (this m) request = false ->
  Request.method request = "DELETE" ->
  middleware RegExp_test request m
  = (Normal (Responded 200 (JsonModeReport "Server in default mode now"
                                           (maintenanceResponseOptions g'))),
     snd (propagate (mkMachine g' (env m1)))).
Proof.
  intros m1 g' Hb Hm Hk Hv. rewrite middleware_route, route_run. fold m1. cbv zeta.
  destruct (update_tests request m) as (Ta & Tm & Tk). cbv zeta in Ta, Tm, Tk.
  fold m1 in Ta, Tm, Tk. rewrite Ta, Tm, Tk, Hb, Hm, Hk, Hv. reflexivity.
Qed.

(** In default mode the blocking branch is not taken: no response carries
    the stored body. *)
Lemma default_mode_not_blocked (request : Request.t B) (m : Machine B S) :
  currentServerMode (this (snd (updateLocalMaintenanceState m))) = default ->
  forall status b,
    fst (middleware RegExp_test request m) <> Normal (Responded status (JsonBody b)).
Proof.
  intros Hmode status b. rewrite middleware_route, route_run. cbv zeta.
  unfold isServerInMaintenanceMode. rewrite Hmode. simpl.
  repeat match goal with
         | |- context [match ?x with _ => _ end] => destruct x
         end; simpl; discriminate.
Qed.

(** The blocking check comes first: in maintenance mode a request whose URL
    contains the API base path gets the blocked response, whatever else it
    is. *)
Lemma blocked_run (request : Request.t B) (m : Machine B S) :
  let m1 := snd (updateLocalMaintenanceState m) in
  currentServerMode (this m1) = maintenance ->
  includes (Request.url request) (apiBasePath (this m)) = true ->
  middleware RegExp_test request m = (blockedResponse (this m1), m1).
Proof.
  intros m1 Hmode Hurl. rewrite middleware_route, route_run. fold m1. cbv zeta.
  destruct (update_config m) as (_ & Hp & _). fold m1 in Hp.
  unfold isServerInMaintenanceMode, isApiRequest.
  rewrite Hmode, Hp, Hurl. reflexivity.
Qed.

(** ** The refresh and the TTL *)

(** C1 (amended). When a refresh-read function is configured, the handler
    does not invoke it if the time elapsed since the last refresh is at
    most the TTL, and invokes it exactly once if the elapsed time is
    strictly greater than the TTL. *)
Theorem refresh_read_iff_TTL_exceeded
        (request : Request.t B) (m : Machine B S) getExternal :
  getExternalMaintenanceState (this m) = Some getExternal ->
  (clock (env m) (reads (env m)) - lastStateUpdateTimestamp (this m)
   <= localMaintenanceStateTTL (this m) ->
   readCount (calls (env (snd (middleware RegExp_test request m))))
   = readCount (calls (env m)))
  /\ (localMaintenanceStateTTL (this m)
      < clock (env m) (reads (env m)) - lastStateUpdateTimestamp (this m) ->
      readCount (calls (env (snd (middleware RegExp_test request m))))
      = Datatypes.S (readCount (calls (env m)))).
Proof.
  intros G. rewrite middleware_route.
  destruct (route_frame request (snd (updateLocalMaintenanceState m))) as (R & _).
  cbv zeta in R. rewrite R, update_readCount, G.
  split; intros H.
  - destruct (Z.ltb_spec (lastStateUpdateTimestamp (this m)
                          + localMaintenanceStateTTL (this m))
                         (clock (env m) (reads (env m)))); [lia | reflexivity].
  - destruct (Z.ltb_spec (lastStateUpdateTimestamp (this m)
                          + localMaintenanceStateTTL (this m))
                         (clock (env m) (reads (env m)))); [reflexivity | lia].
Qed.

(** C9. When the configured read function returns nothing during a refresh
    attempt, the refresh step leaves the whole local state as it was (mode,
    response options and time of the last refresh), the request is routed
    from that unchanged state, the time of the last refresh is still
    unchanged when the handler is done, and the next handled request, at
    any clock reading that is not earlier, invokes the read function again
    (exactly once). *)
Theorem empty_refresh_is_retried
        (request : Request.t B) (m : Machine B S) getExternal store' :
  getExternalMaintenanceState (this m) = Some getExternal ->
  lastStateUpdateTimestamp (this m) + localMaintenanceStateTTL (this m)
  < clock (env m) (reads (env m)) ->
  getExternal (store (env m)) = (None, store') ->
  let m1 := snd (updateLocalMaintenanceState m) in
  let m' := snd (middleware RegExp_test request m) in
  this m1 = this m
  /\ middleware RegExp_test request m
     = route RegExp_test request
         (mkMachine (this m)
            (mkEnv (clock (env m)) (Datatypes.S (reads (env m))) store'
                   (calls (env m) ++ [GetExternal])))
  /\ lastStateUpdateTimestamp (this m') = lastStateUpdateTimestamp (this m)
  /\ forall (request2 : Request.t B) (e2 : Env B S),
      clock (env m) (reads (env m)) <= clock e2 (reads e2) ->
      readCount (calls (env (snd (middleware RegExp_test request2
                                               (mkMachine (this m') e2)))))
      = Datatypes.S (readCount (calls e2)).
Proof.
  intros G D E m1 m'.
  assert (Dt : (lastStateUpdateTimestamp (this m) + localMaintenanceStateTTL (this m)
                <? clock (env m) (reads (env m))) = true) by (apply Z.ltb_lt; exact D).
  assert (U := update_empty m _ _ G Dt E).
  assert (H1 : this m1 = this m) by (unfold m1; rewrite U; reflexivity).
  destruct (route_frame request m1) as (_ & Ft & Fl & Fg). cbv zeta in Ft, Fl, Fg.
  assert (Hm' : m' = snd (route RegExp_test request m1))
    by (unfold m', m1; now rewrite middleware_route).
  rewrite <- Hm', H1 in Ft, Fl, Fg.
  split; [exact H1|]. split; [rewrite middleware_route, U; reflexivity|].
  split; [exact Ft|].
  intros request2 e2 Hclock.
  rewrite middleware_route.
  destruct (route_frame request2
              (snd (updateLocalMaintenanceState (mkMachine (this m') e2)))) as (R & _).
  cbv zeta in R. rewrite R, update_readCount. simpl.
  rewrite Fg, G, Ft, Fl.
  destruct (Z.ltb_spec (lastStateUpdateTimestamp (this m)
                        + localMaintenanceStateTTL (this m))
                       (clock e2 (reads e2))); [reflexivity | lia].
Qed.

(** ** The blocking check *)

(** C2. While the local mode is maintenance (as the blocking check finds it,
    that is once the refresh step is done), a request whose path contains
    the API base path and matches the management path is answered by the
    blocking branch (lines 36-38): the handler serves the blocked response
    and stops there, in the state the refresh step left, so no management
    command is processed, no state changes and no collaborator is written
    to. *)
Theorem blocking_precedes_management (request : Request.t B) (m : Machine B S) :
  let m1 := snd (updateLocalMaintenanceState m) in
  currentServerMode (this m1) = maintenance ->
  includes (Request.path request) (apiBasePath (this m)) = true ->
  isMaintenanceRequest RegExp_test (this m) request = Some true ->
  middleware RegExp_test request m = (blockedResponse (this m1), m1)
  /\ forall o, maintenanceResponseOptions (this m1) = Some o ->
       fst (middleware RegExp_test request m)
       = Normal (Responded (MaintenanceResponseOptions.statusCode o)
                           (JsonBody (MaintenanceResponseOptions.body o))).
Proof.
  intros m1 Hmode Hpath _.
  assert (R : middleware RegExp_test request m = (blockedResponse (this m1), m1))
    by (apply blocked_run; [exact Hmode | now apply includes_pathname]).
  split; [exact R|]. intros o Ho. rewrite R. unfold blockedResponse.
  rewrite Ho. reflexivity.
Qed.

(** C3. While the local mode is maintenance and the response options are
    set (both as the blocking check finds them), a request whose path
    contains the API base path is never passed through: the handler responds
    with exactly the stored status code and body. *)
Theorem protected_request_is_blocked (request : Request.t B) (m : Machine B S) o :
  let m1 := snd (updateLocalMaintenanceState m) in
  currentServerMode (this m1) = maintenance ->
  maintenanceResponseOptions (this m1) = Some o ->
  includes (Request.path request) (apiBasePath (this m)) = true ->
  fst (middleware RegExp_test request m)
  = Normal (Responded (MaintenanceResponseOptions.statusCode o)
                      (JsonBody (MaintenanceResponseOptions.body o)))
  /\ fst (middleware RegExp_test request m) <> Normal NextCalled.
Proof.
  intros m1 Hmode Ho Hpath.
  assert (R : middleware RegExp_test request m = (blockedResponse (this m1), m1))
    by (apply blocked_run; [exact Hmode | now apply includes_pathname]).
  rewrite R. unfold blockedResponse. rewrite Ho. simpl. split; [reflexivity|discriminate].
Qed.

(** C10. The blocking check looks for the API base path anywhere in the
    whole URL, query string included: while the local mode is maintenance
    (with the response options set), a request whose query string contains
    the base path is blocked, whether or not its path contains it. *)
Theorem query_string_match_is_blocked (request : Request.t B) (m : Machine B S) o :
  let m1 := snd (updateLocalMaintenanceState m) in
  currentServerMode (this m1) = maintenance ->
  maintenanceResponseOptions (this m1) = Some o ->
  includes (search (Request.url request)) (apiBasePath (this m)) = true ->
  isApiRequest (this m) request = true
  /\ middleware RegExp_test request m
     = (Normal (Responded (MaintenanceResponseOptions.statusCode o)
                          (JsonBody (MaintenanceResponseOptions.body o))), m1).
Proof.
  intros m1 Hmode Ho Hq.
  assert (Hurl : includes (Request.url request) (apiBasePath (this m)) = true)
    by now apply includes_search.
  split; [exact Hurl|].
  rewrite (blocked_run request m Hmode Hurl). fold m1. unfold blockedResponse.
  rewrite Ho. reflexivity.
Qed.

(** ** Passing through *)

(** C7 (amended). A request whose URL (path and query string) does not
    contain the API base path and whose path is not matched by the
    management path is passed through to normal handling, whether the local
    mode is default or maintenance; the handler produces no response and
    leaves the state as the refresh step left it. *)
Theorem unrelated_request_passes_through (request : Request.t B) (m : Machine B S) :
  includes (Request.url request) (apiBasePath (this m)) = false ->
  isMaintenanceRequest RegExp_test (this m) request = Some false ->
  middleware RegExp_test request m
  = (Normal NextCalled, snd (updateLocalMaintenanceState m)).
Proof.
  intros Hurl Hm. rewrite middleware_route, route_run. cbv zeta.
  destruct (update_config m) as (Hu & Hp & _). cbv zeta in Hu, Hp.
  unfold isApiRequest, isMaintenanceRequest in *.
  rewrite Hp, Hurl, Hu, Hm, andb_false_r. reflexivity.
Qed.

(** ** The management endpoint *)

(** C4 (amended). An authorized POST to the management endpoint that the
    blocking check does not intercept sets the local mode to maintenance;
    a supplied body replaces the response options, otherwise the previous
    ones are kept; a configured write function is called, once, with the
    new mode and options, before the response is built; the response is 200
    with the mode message and the effective options. Afterwards, for as
    long as no external refresh has replaced the mode or the options, a
    request whose path contains the API base path gets the blocked response,
    with exactly the status code and body of the effective options. *)
Theorem authorized_POST_activates (request : Request.t B) (m : Machine B S) :
  let m1 := snd (updateLocalMaintenanceState m) in
  let effective :=
    match Request.body request with
    | Some o => Some o
    | None => maintenanceResponseOptions (this m1)
    end in
  let newState := MaintenanceState.make maintenance effective in
  let m' := snd (middleware RegExp_test request m) in
  isMaintenanceRequest RegExp_test (this m) request = Some true ->
  keyRejected (this m) request = false ->
  Request.method request = "POST" ->
  isServerInMaintenanceMode (this m1) && isApiRequest (this m) request = false ->
  currentServerMode (this m') = maintenance
  /\ maintenanceResponseOptions (this m') = effective
  /\ calls (env m')
     = (calls (env m1)
        ++ match setExternalMaintenanceState (this m) with
           | Some _ => [SetExternal newState]
           | None => []
           end)%list
  /\ store (env m')
     = match setExternalMaintenanceState (this m) with
       | Some setExternal => setExternal newState (store (env m1))
       | None => store (env m1)
       end
  /\ fst (middleware RegExp_test request m)
     = Normal (Responded 200 (JsonModeReport "Server in maintenance mode now" effective))
  /\ forall (request2 : Request.t B) (e2 : Env B S),
      let m2 := mkMachine (this m') e2 in
      let m3 := snd (updateLocalMaintenanceState m2) in
      currentServerMode (this m3) = maintenance ->
      maintenanceResponseOptions (this m3) = effective ->
      includes (Request.path request2) (apiBasePath (this m)) = true ->
      middleware RegExp_test request2 m2 = (blockedResponse (this m3), m3)
      /\ forall o, effective = Some o ->
           fst (middleware RegExp_test request2 m2)
           = Normal (Responded (MaintenanceResponseOptions.statusCode o)
                               (JsonBody (MaintenanceResponseOptions.body o))).
Proof.
  intros m1 effective newState m' Hm Hk Hv Hb.
  assert (R := POST_run request m Hb Hm Hk Hv). cbv zeta in R. fold m1 in R.
  rewrite propagate_run in R. simpl in R.
  destruct (update_config m) as (_ & Hp & _ & _ & _ & Hs). cbv zeta in Hp, Hs.
  fold m1 in Hp, Hs.
  assert (Hm' : m' = snd (middleware RegExp_test request m)) by reflexivity.
  clearbody m'.
  rewrite R in Hm' |- *. simpl in Hm'. rewrite Hs in Hm'.
  split; [subst m'; reflexivity|].
  split; [subst m'; reflexivity|].
  split; [subst m'; simpl; destruct (setExternalMaintenanceState (this m));
          simpl; [reflexivity | now rewrite app_nil_r]|].
  split; [subst m'; simpl; destruct (setExternalMaintenanceState (this m)); reflexivity|].
  split; [reflexivity|].
  intros request2 e2 m2 m3 Hmode Hopts Hpath.
  assert (Hp' : apiBasePath (this m2) = apiBasePath (this m))
    by (unfold m2; subst m'; simpl; exact Hp).
  assert (B2 : middleware RegExp_test request2 m2 = (blockedResponse (this m3), m3)).
  { apply blocked_run; [exact Hmode|]. rewrite Hp'. now apply includes_pathname. }
  split; [exact B2|]. intros o Ho. rewrite B2. unfold blockedResponse.
  simpl. rewrite Hopts, Ho. reflexivity.
Qed.

(** C5 (amended). With an access key configured (a non-empty string), a
    management request whose [accessKey] query parameter is absent or
    different, and that the blocking check does not intercept, is answered
    401 with the fixed message; the write function is never invoked and
    nothing changes beyond what the refresh step at the start of the
    request did: mode, response options and time of the last refresh are as
    that step left them, hence unchanged altogether whenever it applied no
    external state. *)
Theorem rejected_key_is_401 (request : Request.t B) (m : Machine B S) (k : string) :
  let m1 := snd (updateLocalMaintenanceState m) in
  accessKey (this m) = Some k ->
  k <> "" ->
  Request.query_accessKey request <> QString k ->
  isMaintenanceRequest RegExp_test (this m) request = Some true ->
  isServerInMaintenanceMode (this m1) && isApiRequest (this m) request = false ->
  middleware RegExp_test request m
  = (Normal (Responded 401 (JsonMessage "You not authorized to perform this action")), m1)
  /\ writeCount (calls (env (snd (middleware RegExp_test request m))))
     = writeCount (calls (env m))
  /\ ((forall getExternal,
          getExternalMaintenanceState (this m) = Some getExternal ->
          lastStateUpdateTimestamp (this m) + localMaintenanceStateTTL (this m)
          < clock (env m) (reads (env m)) ->
          fst (getExternal (store (env m))) = None) ->
      this (snd (middleware RegExp_test request m)) = this m).
Proof.
  intros m1 Hkey Hne Hq Hm Hb.
  assert (Hrej : keyRejected (this m) request = true).
  { unfold keyRejected, truthy, strictNotEqual. rewrite Hkey.
    destruct (String.eqb_spec k ""); [contradiction|]. simpl.
    destruct (Request.query_accessKey request) as [|s|]; try reflexivity.
    destruct (String.eqb_spec s k); [subst s; contradiction | reflexivity]. }
  assert (R : middleware RegExp_test request m
              = (Normal (Responded 401
                           (JsonMessage "You not authorized to perform this action")), m1)).
  { rewrite middleware_route, route_run. fold m1. cbv zeta.
    destruct (update_tests request m) as (Ta & Tm & Tk). cbv zeta in Ta, Tm, Tk.
    fold m1 in Ta, Tm, Tk. rewrite Ta, Tm, Tk, Hb, Hm, Hrej. reflexivity. }
  rewrite R. simpl. split; [reflexivity|].
  split; [apply update_writeCount | apply update_nothing_applied].
Qed.

(** C6 (amended). An authorized DELETE to the management endpoint that the
    blocking check does not intercept sets the local mode to default and
    leaves the response options as they were; a configured write function is
    called, once, with the new state; the response is 200 with the mode
    message and the response options. Afterwards, for as long as no external
    refresh has turned maintenance back on, no request is blocked, whatever
    the response options still hold: a request that is not a management
    request is passed through, also when its path contains the API base
    path. *)
Theorem authorized_DELETE_deactivates (request : Request.t B) (m : Machine B S) :
  let m1 := snd (updateLocalMaintenanceState m) in
  let newState :=
    MaintenanceState.make default (maintenanceResponseOptions (this m1)) in
  let m' := snd (middleware RegExp_test request m) in
  isMaintenanceRequest RegExp_test (this m) request = Some true ->
  keyRejected (this m) request = false ->
  Request.method request = "DELETE" ->
  isServerInMaintenanceMode (this m1) && isApiRequest (this m) request = false ->
  currentServerMode (this m') = default
  /\ maintenanceResponseOptions (this m') = maintenanceResponseOptions (this m1)
  /\ calls (env m')
     = (calls (env m1)
        ++ match setExternalMaintenanceState (this m) with
           | Some _ => [SetExternal newState]
           | None => []
           end)%list
  /\ store (env m')
     = match setExternalMaintenanceState (this m) with
       | Some setExternal => setExternal newState (store (env m1))
       | None => store (env m1)
       end
  /\ fst (middleware RegExp_test request m)
     = Normal (Responded 200 (JsonModeReport "Server in default mode now"
                                             (maintenanceResponseOptions (this m1))))
  /\ forall (request2 : Request.t B) (e2 : Env B S),
      let m2 := mkMachine (this m') e2 in
      let m3 := snd (updateLocalMaintenanceState m2) in
      currentServerMode (this m3) = default ->
      (forall status b,
          fst (middleware RegExp_test request2 m2)
          <> Normal (Responded status (JsonBody b)))
      /\ (isMaintenanceRequest RegExp_test (this m) request2 = Some false ->
          middleware RegExp_test request2 m2 = (Normal NextCalled, m3)).
Proof.
  intros m1 newState m' Hm Hk Hv Hb.
  assert (R := DELETE_run request m Hb Hm Hk Hv). cbv zeta in R. fold m1 in R.
  rewrite propagate_run in R. simpl in R.
  destruct (update_config m) as (Hu & _ & _ & _ & _ & Hs). cbv zeta in Hu, Hs.
  fold m1 in Hu, Hs.
  assert (Hm' : m' = snd (middleware RegExp_test request m)) by reflexivity.
  clearbody m'.
  rewrite R in Hm' |- *. simpl in Hm'. rewrite Hs in Hm'.
  split; [subst m'; reflexivity|].
  split; [subst m'; reflexivity|].
  split; [subst m'; simpl; destruct (setExternalMaintenanceState (this m));
          simpl; [reflexivity | now rewrite app_nil_r]|].
  split; [subst m'; simpl; destruct (setExternalMaintenanceState (this m)); reflexivity|].
  split; [reflexivity|].
  intros request2 e2 m2 m3 Hmode.
  split; [now apply default_mode_not_blocked|].
  intros Hnot.
  rewrite middleware_route, route_run. fold m3. cbv zeta.
  destruct (update_tests request2 m2) as (_ & Tm & _). cbv zeta in Tm. fold m3 in Tm.
  assert (Hm2 : isMaintenanceRequest RegExp_test (this m2) request2
                = isMaintenanceRequest RegExp_test (this m) request2)
    by (unfold isMaintenanceRequest, m2; subst m'; simpl; now rewrite Hu).
  unfold isServerInMaintenanceMode. rewrite Hmode, Tm, Hm2, Hnot. reflexivity.
Qed.

(** C8 (amended). After a POST activation, an authorized GET to the
    management endpoint that the blocking check does not intercept is
    answered 200 with a message that names exactly the local mode as it
    stands, and changes nothing; the response options are not part of that
    response. With no external refresh in between, the mode named is
    maintenance, and the state the GET leaves holds exactly the mode and the
    response options the POST set. *)
Theorem GET_after_POST_reports_mode
        (post get : Request.t B) (m : Machine B S) (e2 : Env B S) :
  let m1 := snd (updateLocalMaintenanceState m) in
  let effective :=
    match Request.body post with
    | Some o => Some o
    | None => maintenanceResponseOptions (this m1)
    end in
  let m' := snd (middleware RegExp_test post m) in
  let m2 := mkMachine (this m') e2 in
  let m3 := snd (updateLocalMaintenanceState m2) in
  isMaintenanceRequest RegExp_test (this m) post = Some true ->
  keyRejected (this m) post = false ->
  Request.method post = "POST" ->
  isServerInMaintenanceMode (this m1) && isApiRequest (this m) post = false ->
  isMaintenanceRequest RegExp_test (this m) get = Some true ->
  keyRejected (this m) get = false ->
  Request.method get = "GET" ->
  isServerInMaintenanceMode (this m3) && isApiRequest (this m) get = false ->
  middleware RegExp_test get m2
  = (Normal (Responded 200
               (JsonMessage ("Server in "
                             ++ ServerMode_toString (currentServerMode (this m3))
                             ++ " mode now"))), m3)
  /\ (this m3 = this m' ->
      fst (middleware RegExp_test get m2)
      = Normal (Responded 200 (JsonMessage "Server in maintenance mode now"))
      /\ currentServerMode (this (snd (middleware RegExp_test get m2))) = maintenance
      /\ maintenanceResponseOptions (this (snd (middleware RegExp_test get m2)))
         = effective).
Proof.
  intros m1 effective m' m2 m3 Pm Pk Pv Pb Gm Gk Gv Gb.
  assert (R := POST_run post m Pb Pm Pk Pv). cbv zeta in R. fold m1 in R.
  rewrite propagate_run in R. simpl in R.
  assert (Hm' : m' = snd (middleware RegExp_test post m)) by reflexivity.
  clearbody m'.
  rewrite R in Hm'. simpl in Hm'.
  destruct (update_config m) as (Hu & Hp & Ha & _). cbv zeta in Hu, Hp, Ha.
  fold m1 in Hu, Hp, Ha.
  assert (T : isApiRequest (this m2) get = isApiRequest (this m) get
              /\ isMaintenanceRequest RegExp_test (this m2) get
                 = isMaintenanceRequest RegExp_test (this m) get
              /\ keyRejected (this m2) get = keyRejected (this m) get).
  { unfold isApiRequest, isMaintenanceRequest, keyRejected, m2. subst m'. simpl.
    rewrite Hu, Hp, Ha. auto. }
  destruct T as (Ta & Tm & Tk).
  assert (G : middleware RegExp_test get m2
              = (Normal (Responded 200 (JsonMessage (modeMessage (this m3)))), m3)).
  { apply GET_run; fold m3; [now rewrite Ta | now rewrite Tm | now rewrite Tk | exact Gv]. }
  split; [exact G|].
  intros Same. rewrite G. simpl. rewrite Same. subst m'. simpl. auto.
Qed.

(** ** Further properties of the handler *)

(** *** Which branch answers *)

(** X1. An authorized management request that the blocking check does not
    intercept and whose verb is none of GET, POST and DELETE is answered 405
    with a message naming the verb (lines 74-77); nothing is written and
    the state stays as the refresh step left it. *)
Theorem unsupported_verb_is_405 (request : Request.t B) (m : Machine B S) :
  let m1 := snd (updateLocalMaintenanceState m) in
  isServerInMaintenanceMode (this m1) && isApiRequest (this m) request = false ->
  isMaintenanceRequest RegExp_test (this m) request = Some true ->
  keyRejected (this m) request = false ->
  Request.method request <> "GET" ->
  Request.method request <> "POST" ->
  Request.method request <> "DELETE" ->
  middleware RegExp_test request m
  = (Normal (Responded 405
               (JsonMessage (Request.method request
                             ++ " is not allowed for this endpoint"))), m1).
Proof.
  intros m1 Hb Hm Hk Hg Hp Hd. rewrite middleware_route, route_run. fold m1. cbv zeta.
  destruct (update_tests request m) as (Ta & Tm & Tk). cbv zeta in Ta, Tm, Tk.
  fold m1 in Ta, Tm, Tk. rewrite Ta, Tm, Tk, Hb, Hm, Hk.
  destruct (String.eqb_spec (Request.method request) "GET"); [contradiction|].
  destruct (String.eqb_spec (Request.method request) "POST"); [contradiction|].
  destruct (String.eqb_spec (Request.method request) "DELETE"); [contradiction|].
  reflexivity.
Qed.

(** X2. Only an authorized POST or DELETE to the management endpoint that
    the blocking check does not intercept changes anything after the
    refresh step: a request that is blocked, or does not match the
    management path, or has its key rejected, or carries another verb,
    leaves the local state, the store and the call log exactly as the
    refresh step left them. *)
Theorem state_changes_only_by_POST_or_DELETE (request : Request.t B) (m : Machine B S) :
  let m1 := snd (updateLocalMaintenanceState m) in
  (isServerInMaintenanceMode (this m1) && isApiRequest (this m) request = true
   \/ isMaintenanceRequest RegExp_test (this m) request <> Some true
   \/ keyRejected (this m) request = true
   \/ (Request.method request <> "POST" /\ Request.method request <> "DELETE")) ->
  snd (middleware RegExp_test request m) = m1.
Proof.
  intros m1 H. rewrite middleware_route, route_run. fold m1. cbv zeta.
  destruct (update_tests request m) as (Ta & Tm & Tk). cbv zeta in Ta, Tm, Tk.
  fold m1 in Ta, Tm, Tk. rewrite Ta, Tm, Tk.
  destruct (isServerInMaintenanceMode (this m1) && isApiRequest (this m) request)
    eqn:Eb; [reflexivity|].
  destruct (isMaintenanceRequest RegExp_test (this m) request) as [[|]|] eqn:Em;
    [|reflexivity|reflexivity].
  destruct (keyRejected (this m) request) eqn:Ek; [reflexivity|].
  destruct (String.eqb_spec (Request.method request) "GET"); [reflexivity|].
  destruct (String.eqb_spec (Request.method request) "POST").
  { exfalso. destruct H as [H|[H|[H|[H _]]]]; congruence. }
  destruct (String.eqb_spec (Request.method request) "DELETE"); [|reflexivity].
  exfalso. destruct H as [H|[H|[H|[_ H]]]]; congruence.
Qed.

(** X3. The handler calls [next()] exactly when the blocking check does not
    fire and the path is not matched by the management path: a management
    request is never passed on, whatever its key or verb. *)
Theorem passes_through_iff (request : Request.t B) (m : Machine B S) :
  let m1 := snd (updateLocalMaintenanceState m) in
  fst (middleware RegExp_test request m) = Normal NextCalled
  <-> (isServerInMaintenanceMode (this m1) && isApiRequest (this m) request = false
       /\ isMaintenanceRequest RegExp_test (this m) request = Some false).
Proof.
  intros m1. rewrite middleware_route, route_run. fold m1. cbv zeta.
  destruct (update_tests request m) as (Ta & Tm & Tk). cbv zeta in Ta, Tm, Tk.
  fold m1 in Ta, Tm, Tk. rewrite Ta, Tm, Tk.
  destruct (isServerInMaintenanceMode (this m1) && isApiRequest (this m) request).
  { unfold blockedResponse. destruct (maintenanceResponseOptions (this m1)); simpl;
      split; [discriminate | intros [? _]; discriminate
              | discriminate | intros [? _]; discriminate]. }
  destruct (isMaintenanceRequest RegExp_test (this m) request) as [[|]|].
  - destruct (keyRejected (this m) request);
      [simpl; split; [discriminate | intros [_ ?]; discriminate]|].
    destruct (String.eqb (Request.method request) "GET");
      [simpl; split; [discriminate | intros [_ ?]; discriminate]|].
    destruct (String.eqb (Request.method request) "POST");
      [simpl; split; [discriminate | intros [_ ?]; discriminate]|].
    destruct (String.eqb (Request.method request) "DELETE");
      simpl; split; try discriminate; intros [_ ?]; discriminate.
  - simpl. split; auto.
  - simpl. split; [discriminate | intros [_ ?]; discriminate].
Qed.

(** X4. The blocking branch answers exactly when, once the refresh step is
    done, the mode is maintenance and the URL contains the API base path:
    no other branch produces the stored body or the failed read of the
    status code. *)
Theorem blocked_iff (request : Request.t B) (m : Machine B S) :
  let m1 := snd (updateLocalMaintenanceState m) in
  isServerInMaintenanceMode (this m1) && isApiRequest (this m) request = true
  <-> fst (middleware RegExp_test request m) = blockedResponse (this m1).
Proof.
  intros m1. rewrite middleware_route, route_run. fold m1. cbv zeta.
  destruct (update_tests request m) as (Ta & Tm & Tk). cbv zeta in Ta, Tm, Tk.
  fold m1 in Ta, Tm, Tk. rewrite Ta, Tm, Tk.
  destruct (isServerInMaintenanceMode (this m1) && isApiRequest (this m) request);
    [simpl; split; reflexivity|].
  split; [discriminate|]. intros H. exfalso. revert H. unfold blockedResponse.
  destruct (isMaintenanceRequest RegExp_test (this m) request) as [[|]|];
    [destruct (keyRejected (this m) request);
     [|destruct (String.eqb (Request.method request) "GET");
       [|destruct (String.eqb (Request.method request) "POST");
         [|destruct (String.eqb (Request.method request) "DELETE")]]]| |];
    destruct (maintenanceResponseOptions (this m1)); simpl; discriminate.
Qed.

(** X16. The management pattern is compiled for every request that the
    blocking check does not intercept: when the configured management path
    is not a valid pattern, each such request fails with a [SyntaxError],
    management request or not, and the state stays as the refresh step left
    it. *)
Theorem invalid_pattern_fails_unblocked_requests
        (request : Request.t B) (m : Machine B S) :
  let m1 := snd (updateLocalMaintenanceState m) in
  RegExp_test (url (this m) ++ "$") (Request.path request) = None ->
  isServerInMaintenanceMode (this m1) && isApiRequest (this m) request = false ->
  middleware RegExp_test request m = (Throw SyntaxError, m1).
Proof.
  intros m1 Hr Hb. rewrite middleware_route, route_run. fold m1. cbv zeta.
  destruct (update_tests request m) as (Ta & Tm & _). cbv zeta in Ta, Tm.
  fold m1 in Ta, Tm. rewrite Ta, Tm, Hb. unfold isMaintenanceRequest.
  rewrite Hr. reflexivity.
Qed.

(** *** Invariants of a run *)

(** The routing leaves the configuration alone, and writes at most once:
    what it writes is the local state it ends with. *)
Lemma route_config (request : Request.t B) (m : Machine B S) :
  let g' := this (snd (route RegExp_test request m)) in
  url g' = url (this m) /\ apiBasePath g' = apiBasePath (this m) /\
  accessKey g' = accessKey (this m) /\
  localMaintenanceStateTTL g' = localMaintenanceStateTTL (this m) /\
  getExternalMaintenanceState g' = getExternalMaintenanceState (this m) /\
  setExternalMaintenanceState g' = setExternalMaintenanceState (this m).
Proof.
  rewrite route_run. cbv zeta.
  destruct (isServerInMaintenanceMode (this m) && isApiRequest (this m) request);
    [simpl; repeat split|].
  destruct (isMaintenanceRequest RegExp_test (this m) request) as [[|]|];
    [|simpl; repeat split|simpl; repeat split].
  destruct (keyRejected (this m) request); [simpl; repeat split|].
  destruct (String.eqb (Request.method request) "GET"); [simpl; repeat split|].
  destruct (String.eqb (Request.method request) "POST");
    [|destruct (String.eqb (Request.method request) "DELETE");
      [|simpl; repeat split]];
    rewrite propagate_run; simpl; repeat split.
Qed.

Lemma route_calls (request : Request.t B) (m : Machine B S) :
  let m' := snd (route RegExp_test request m) in
  calls (env m') = calls (env m)
  \/ calls (env m')
     = (calls (env m) ++ [SetExternal (getLocalMaintenanceState (this m'))])%list.
Proof.
  rewrite route_run. cbv zeta.
  destruct (isServerInMaintenanceMode (this m) && isApiRequest (this m) request);
    [left; reflexivity|].
  destruct (isMaintenanceRequest RegExp_test (this m) request) as [[|]|];
    [|left; reflexivity|left; reflexivity].
  destruct (keyRejected (this m) request); [left; reflexivity|].
  destruct (String.eqb (Request.method request) "GET"); [left; reflexivity|].
  destruct (String.eqb (Request.method request) "POST");
    [|destruct (String.eqb (Request.method request) "DELETE");
      [|left; reflexivity]];
    rewrite propagate_run; simpl;
    (destruct (setExternalMaintenanceState (this m)); [right|left]; reflexivity).
Qed.

(** X9. Whatever the request, the handler calls the read function at most
    once and the write function at most once, the read before the write;
    and what it writes is exactly the mode and response options the gate
    holds when the handler is done. *)
Theorem at_most_one_read_then_one_write (request : Request.t B) (m : Machine B S) :
  let m' := snd (middleware RegExp_test request m) in
  exists r w,
    calls (env m') = (calls (env m) ++ r ++ w)%list
    /\ (r = [] \/ r = [GetExternal])
    /\ (w = [] \/ w = [SetExternal (getLocalMaintenanceState (this m'))]).
Proof.
  intros m'. unfold m'. rewrite middleware_route.
  assert (U : exists r, calls (env (snd (updateLocalMaintenanceState m)))
                        = (calls (env m) ++ r)%list
                        /\ (r = [] \/ r = [GetExternal])).
  { update_cases m; simpl;
      first [ exists []; split; [now rewrite app_nil_r | now left]
            | exists [GetExternal]; split; [reflexivity | now right] ]. }
  destruct U as (r & Ur & Hr).
  destruct (route_calls request (snd (updateLocalMaintenanceState m))) as [W|W];
    cbv zeta in W; rewrite W, Ur.
  - exists r, []. rewrite app_nil_r. auto.
  - exists r, [SetExternal
                 (getLocalMaintenanceState
                    (this (snd (route RegExp_test request
                                      (snd (updateLocalMaintenanceState m))))))].
    rewrite <- app_assoc. auto.
Qed.

(** X10. The handler never changes the configuration of the gate: paths,
    access key, TTL and the two collaborators are after any request what
    they were before it. *)
Theorem configuration_is_read_only (request : Request.t B) (m : Machine B S) :
  let g' := this (snd (middleware RegExp_test request m)) in
  url g' = url (this m) /\ apiBasePath g' = apiBasePath (this m) /\
  accessKey g' = accessKey (this m) /\
  localMaintenanceStateTTL g' = localMaintenanceStateTTL (this m) /\
  getExternalMaintenanceState g' = getExternalMaintenanceState (this m) /\
  setExternalMaintenanceState g' = setExternalMaintenanceState (this m).
Proof.
  intros g'. unfold g'. rewrite middleware_route.
  destruct (route_config request (snd (updateLocalMaintenanceState m)))
    as (R1 & R2 & R3 & R4 & R5 & R6).
  destruct (update_config m) as (U1 & U2 & U3 & U4 & U5 & U6).
  cbv zeta in *. rewrite R1, R2, R3, R4, R5, R6. auto 10.
Qed.

(** *** The refresh step, continued *)

(** X8. A gate without a read function never consults the clock or the
    store: the request is routed from the state the gate already holds, no
    clock reading is consumed, no read is logged and the time of the last
    refresh stays what it was. *)
Theorem no_reader_no_refresh (request : Request.t B) (m : Machine B S) :
  getExternalMaintenanceState (this m) = None ->
  middleware RegExp_test request m = route RegExp_test request m
  /\ reads (env (snd (middleware RegExp_test request m))) = reads (env m)
  /\ readCount (calls (env (snd (middleware RegExp_test request m))))
     = readCount (calls (env m))
  /\ lastStateUpdateTimestamp (this (snd (middleware RegExp_test request m)))
     = lastStateUpdateTimestamp (this m).
Proof.
  intros G. rewrite middleware_route, (update_not_configured m G). simpl.
  split; [reflexivity|].
  destruct (route_frame request m) as (F1 & F2 & _). cbv zeta in F1, F2.
  split; [|split; assumption].
  rewrite route_run. cbv zeta.
  destruct (isServerInMaintenanceMode (this m) && isApiRequest (this m) request);
    [reflexivity|].
  destruct (isMaintenanceRequest RegExp_test (this m) request) as [[|]|];
    [|reflexivity|reflexivity].
  destruct (keyRejected (this m) request); [reflexivity|].
  destruct (String.eqb (Request.method request) "GET"); [reflexivity|].
  destruct (String.eqb (Request.method request) "POST");
    [|destruct (String.eqb (Request.method request) "DELETE"); [|reflexivity]];
    rewrite propagate_run; simpl;
    destruct (setExternalMaintenanceState (this m)); reflexivity.
Qed.

(** X6. A state delivered by the read function takes effect in the very
    request that fetched it: the gate adopts its mode and response options
    and stamps the refresh with a fresh clock reading; if the delivered mode
    is maintenance a request whose URL contains the API base path gets the
    delivered response, and if it is default no request is blocked,
    whatever the gate held before. *)
Theorem refresh_takes_effect_at_once
        (request : Request.t B) (m : Machine B S) getExternal state store' :
  getExternalMaintenanceState (this m) = Some getExternal ->
  lastStateUpdateTimestamp (this m) + localMaintenanceStateTTL (this m)
  < clock (env m) (reads (env m)) ->
  getExternal (store (env m)) = (Some state, store') ->
  let m1 := snd (updateLocalMaintenanceState m) in
  currentServerMode (this m1) = MaintenanceState.currentServerMode state
  /\ maintenanceResponseOptions (this m1)
     = MaintenanceState.maintenanceResponseOptions state
  /\ lastStateUpdateTimestamp (this m1)
     = clock (env m) (Datatypes.S (reads (env m)))
  /\ (MaintenanceState.currentServerMode state = maintenance ->
      isApiRequest (this m) request = true ->
      fst (middleware RegExp_test request m)
      = match MaintenanceState.maintenanceResponseOptions state with
        | Some o => Normal (Responded (MaintenanceResponseOptions.statusCode o)
                                      (JsonBody (MaintenanceResponseOptions.body o)))
        | None => Throw TypeError
        end)
  /\ (MaintenanceState.currentServerMode state = default ->
      forall status b,
        fst (middleware RegExp_test request m)
        <> Normal (Responded status (JsonBody b))).
Proof.
  intros G D E m1.
  assert (Dt : (lastStateUpdateTimestamp (this m) + localMaintenanceStateTTL (this m)
                <? clock (env m) (reads (env m))) = true) by (apply Z.ltb_lt; exact D).
  assert (U := update_applied m _ _ _ G Dt E).
  assert (H1 : currentServerMode (this m1) = MaintenanceState.currentServerMode state)
    by (unfold m1; rewrite U; reflexivity).
  assert (H2 : maintenanceResponseOptions (this m1)
               = MaintenanceState.maintenanceResponseOptions state)
    by (unfold m1; rewrite U; reflexivity).
  split; [exact H1|]. split; [exact H2|].
  split; [unfold m1; rewrite U; reflexivity|]. split.
  - intros Hmode Hurl.
    rewrite (blocked_run request m); fold m1;
      [| now rewrite H1 | exact Hurl].
    simpl. unfold blockedResponse. rewrite H2. reflexivity.
  - intros Hmode. apply default_mode_not_blocked. fold m1. now rewrite H1.
Qed.

(** X7. A successful refresh opens a new TTL window, counted from the clock
    reading taken once the read function has answered: the next request
    does not call the read function as long as its own clock reading is no
    more than the TTL past that stamp. *)
Theorem refresh_opens_new_TTL_window
        (request : Request.t B) (m : Machine B S) getExternal state store' :
  getExternalMaintenanceState (this m) = Some getExternal ->
  lastStateUpdateTimestamp (this m) + localMaintenanceStateTTL (this m)
  < clock (env m) (reads (env m)) ->
  getExternal (store (env m)) = (Some state, store') ->
  let m' := snd (middleware RegExp_test request m) in
  lastStateUpdateTimestamp (this m') = clock (env m) (Datatypes.S (reads (env m)))
  /\ forall (request2 : Request.t B) (e2 : Env B S),
      clock e2 (reads e2) - clock (env m) (Datatypes.S (reads (env m)))
      <= localMaintenanceStateTTL (this m) ->
      readCount (calls (env (snd (middleware RegExp_test request2
                                               (mkMachine (this m') e2)))))
      = readCount (calls e2).
Proof.
  intros G D E m'.
  assert (Dt : (lastStateUpdateTimestamp (this m) + localMaintenanceStateTTL (this m)
                <? clock (env m) (reads (env m))) = true) by (apply Z.ltb_lt; exact D).
  assert (U := update_applied m _ _ _ G Dt E).
  destruct (route_frame request (snd (updateLocalMaintenanceState m)))
    as (_ & Ft & Fl & Fg). cbv zeta in Ft, Fl, Fg.
  assert (Hm' : m' = snd (route RegExp_test request (snd (updateLocalMaintenanceState m))))
    by (unfold m'; now rewrite middleware_route).
  clearbody m'. rewrite <- Hm' in Ft, Fl, Fg. rewrite U in Ft, Fl, Fg.
  simpl in Ft, Fl, Fg.
  split; [exact Ft|].
  intros request2 e2 Hclock. rewrite middleware_route.
  destruct (route_frame request2
              (snd (updateLocalMaintenanceState (mkMachine (this m') e2)))) as (R & _).
  cbv zeta in R. rewrite R, update_readCount. simpl. rewrite Fg, G, Ft, Fl.
  destruct (Z.ltb_spec (clock (env m) (Datatypes.S (reads (env m)))
                        + localMaintenanceStateTTL (this m))
                       (clock e2 (reads e2))); [lia | reflexivity].
Qed.

(** X19. The time of the last refresh moves only when the read function
    was configured, due, and answered with a state: every other request
    leaves it where it was. *)
Theorem timestamp_moves_only_on_applied_refresh
        (request : Request.t B) (m : Machine B S) :
  lastStateUpdateTimestamp (this (snd (middleware RegExp_test request m)))
  <> lastStateUpdateTimestamp (this m) ->
  exists getExternal state store',
    getExternalMaintenanceState (this m) = Some getExternal
    /\ lastStateUpdateTimestamp (this m) + localMaintenanceStateTTL (this m)
       < clock (env m) (reads (env m))
    /\ getExternal (store (env m)) = (Some state, store').
Proof.
  rewrite middleware_route.
  destruct (route_frame request (snd (updateLocalMaintenanceState m))) as (_ & Ft & _).
  cbv zeta in Ft. rewrite Ft. clear Ft.
  update_cases m; simpl; intros H; try (exfalso; apply H; reflexivity).
  exists getExternal, state, store'. apply Z.ltb_lt in D. auto.
Qed.

(** *** The tests on a request *)

Lemma prefix_split (p s : string) :
  String.prefix p s = true -> exists b, s = p ++ b.
Proof.
  revert s; induction p as [|c p IH]; intros s H.
  - exists s. reflexivity.
  - destruct s as [|d s]; simpl in H; [discriminate|].
    destruct (ascii_dec c d) as [->|]; [|discriminate].
    destruct (IH s H) as [b ->]. exists b. reflexivity.
Qed.

Lemma prefix_refl (p : string) : String.prefix p p = true.
Proof.
  induction p as [|c p IH]; [reflexivity|]. simpl.
  destruct (ascii_dec c c); [exact IH | congruence].
Qed.

Lemma includes_refl (p : string) : includes p p = true.
Proof.
  destruct p as [|c p]; [reflexivity|].
  cbn [includes]. rewrite prefix_refl. reflexivity.
Qed.

Lemma includes_empty (s : string) : includes s "" = true.
Proof. destruct s; reflexivity. Qed.

Lemma includes_split (s p : string) :
  includes s p = true -> exists a b, s = a ++ p ++ b.
Proof.
  induction s as [|c s IH]; cbn [includes]; intros H.
  - rewrite orb_false_r in H. destruct (prefix_split _ _ H) as [b Hb].
    exists "", b. exact Hb.
  - apply orb_true_iff in H. destruct H as [H|H].
    + destruct (prefix_split _ _ H) as [b Hb]. exists "", b. exact Hb.
    + destruct (IH H) as (a & b & ->). exists (String c a), b. reflexivity.
Qed.

(** X15. The API test holds exactly when the API base path occurs somewhere
    in the request URL: at the start, in the middle of a path segment, or
    in the query string. *)
Theorem isApiRequest_iff_occurs (g : ExpressMaintenance B S) (request : Request.t B) :
  isApiRequest g request = true
  <-> exists a b, Request.url request = a ++ apiBasePath g ++ b.
Proof.
  unfold isApiRequest. split.
  - apply includes_split.
  - intros (a & b & ->). apply includes_app_r, includes_app_l, includes_refl.
Qed.

(** X13. The key check rejects a request exactly when the gate has a
    non-empty access key and the [accessKey] query parameter is not that
    very string: a gate without a key, or with the empty string as its key,
    rejects nobody. *)
Theorem keyRejected_iff (g : ExpressMaintenance B S) (request : Request.t B) :
  keyRejected g request = true
  <-> exists k, accessKey g = Some k /\ k <> ""
                /\ Request.query_accessKey request <> QString k.
Proof.
  unfold keyRejected, truthy, strictNotEqual. split.
  - destruct (accessKey g) as [k|]; [|discriminate].
    destruct (String.eqb_spec k ""); [discriminate|]. simpl. intros H.
    exists k. split; [reflexivity|]. split; [assumption|].
    destruct (Request.query_accessKey request) as [|s|]; try discriminate.
    destruct (String.eqb_spec s k); [discriminate|]. congruence.
  - intros (k & -> & Hk & Hq).
    destruct (String.eqb_spec k ""); [contradiction|]. simpl.
    destruct (Request.query_accessKey request) as [|s|]; try reflexivity.
    destruct (String.eqb_spec s k); [subst; contradiction | reflexivity].
Qed.

(** X14. With the empty string as API base path every URL contains it:
    while the mode is maintenance every request gets the blocking branch,
    management requests included, so the gate cannot be deactivated through
    its endpoint. *)
Theorem empty_base_path_blocks_everything (request : Request.t B) (m : Machine B S) :
  let m1 := snd (updateLocalMaintenanceState m) in
  apiBasePath (this m) = "" ->
  currentServerMode (this m1) = maintenance ->
  middleware RegExp_test request m = (blockedResponse (this m1), m1)
  /\ currentServerMode (this (snd (middleware RegExp_test request m))) = maintenance.
Proof.
  intros m1 Hp Hmode.
  assert (R : middleware RegExp_test request m = (blockedResponse (this m1), m1))
    by (apply blocked_run; [exact Hmode | rewrite Hp; apply includes_empty]).
  rewrite R. split; [reflexivity | exact Hmode].
Qed.

(** *** Sequences of requests *)

(** X5. An activation without a body on a gate whose response options were
    never set succeeds, answering 200 with no options; but from then on, for
    as long as no refresh delivers options, a request whose URL contains the
    API base path gets no response at all: the handler fails with a
    [TypeError] while reading the status code. *)
Theorem bodyless_first_activation_breaks_blocking
        (post request2 : Request.t B) (m : Machine B S) (e2 : Env B S) :
  let m1 := snd (updateLocalMaintenanceState m) in
  let m' := snd (middleware RegExp_test post m) in
  let m2 := mkMachine (this m') e2 in
  let m3 := snd (updateLocalMaintenanceState m2) in
  isMaintenanceRequest RegExp_test (this m) post = Some true ->
  keyRejected (this m) post = false ->
  Request.method post = "POST" ->
  isServerInMaintenanceMode (this m1) && isApiRequest (this m) post = false ->
  Request.body post = None ->
  maintenanceResponseOptions (this m1) = None ->
  this m3 = this m' ->
  isApiRequest (this m) request2 = true ->
  fst (middleware RegExp_test post m)
  = Normal (Responded 200 (JsonModeReport "Server in maintenance mode now" None))
  /\ middleware RegExp_test request2 m2 = (Throw TypeError, m3).
Proof.
  intros m1 m' m2 m3 Hm Hk Hv Hb Hbody Hopts Same Hurl.
  assert (R := POST_run post m Hb Hm Hk Hv). cbv zeta in R. fold m1 in R.
  rewrite propagate_run in R. simpl in R. rewrite Hbody, Hopts in R.
  assert (Hm' : m' = snd (middleware RegExp_test post m)) by reflexivity.
  clearbody m'. rewrite R in Hm' |- *. simpl in Hm'.
  destruct (update_config m) as (_ & Hp & _). cbv zeta in Hp. fold m1 in Hp.
  split; [reflexivity|].
  assert (B2 : middleware RegExp_test request2 m2 = (blockedResponse (this m3), m3)).
  { apply blocked_run.
    - fold m3. rewrite Same. subst m'. reflexivity.
    - unfold m2. subst m'. simpl. rewrite Hp. exact Hurl. }
  rewrite B2. unfold blockedResponse. rewrite Same. subst m'. reflexivity.
Qed.

(** X11. Activation is idempotent on the local state: repeating an
    authorized POST, with no refresh delivering a state in between, leaves
    the gate in the mode and with the response options the first POST gave
    it, whether the repeat is processed or, its URL containing the API base
    path, blocked. *)
Theorem POST_is_idempotent (post : Request.t B) (m : Machine B S) (e2 : Env B S) :
  let m1 := snd (updateLocalMaintenanceState m) in
  let m' := snd (middleware RegExp_test post m) in
  let m2 := mkMachine (this m') e2 in
  let m3 := snd (updateLocalMaintenanceState m2) in
  isMaintenanceRequest RegExp_test (this m) post = Some true ->
  keyRejected (this m) post = false ->
  Request.method post = "POST" ->
  isServerInMaintenanceMode (this m1) && isApiRequest (this m) post = false ->
  this m3 = this m' ->
  this (snd (middleware RegExp_test post m2)) = this m'.
Proof.
  intros m1 m' m2 m3 Hm Hk Hv Hb Same.
  assert (R := POST_run post m Hb Hm Hk Hv). cbv zeta in R. fold m1 in R.
  rewrite propagate_run in R. simpl in R.
  assert (Hm' : this m' = this (snd (middleware RegExp_test post m))) by reflexivity.
  rewrite R in Hm'. simpl in Hm'.
  destruct (update_config m) as (Hu & Hp & Ha & _). cbv zeta in Hu, Hp, Ha.
  fold m1 in Hu, Hp, Ha.
  rewrite middleware_route, route_run. fold m3. cbv zeta.
  unfold isServerInMaintenanceMode, isApiRequest, isMaintenanceRequest, keyRejected
    in *.
  rewrite Same, Hm'. simpl. rewrite Hu, Hp, Ha, Hm, Hk, Hv.
  destruct (includes (Request.url post) (apiBasePath (this m))).
  - simpl. rewrite Same. exact Hm'.
  - simpl. rewrite propagate_run. simpl. rewrite ?Same, ?Hm'. simpl.
    destruct (Request.body post); reflexivity.
Qed.

(** X12. Deactivation keeps the response options, so it can be undone
    without repeating them: on a gate without a read function that is in
    maintenance mode, an authorized DELETE followed by an authorized POST
    without a body brings the gate back to exactly the local state it had
    before the DELETE. *)
Theorem bodyless_POST_undoes_DELETE
        (del post : Request.t B) (m : Machine B S) (e2 : Env B S) :
  let m' := snd (middleware RegExp_test del m) in
  getExternalMaintenanceState (this m) = None ->
  currentServerMode (this m) = maintenance ->
  isApiRequest (this m) del = false ->
  isMaintenanceRequest RegExp_test (this m) del = Some true ->
  keyRejected (this m) del = false ->
  Request.method del = "DELETE" ->
  isMaintenanceRequest RegExp_test (this m) post = Some true ->
  keyRejected (this m) post = false ->
  Request.method post = "POST" ->
  Request.body post = None ->
  currentServerMode (this m') = default
  /\ this (snd (middleware RegExp_test post (mkMachine (this m') e2))) = this m.
Proof.
  intros m' G Hmode Dapi Dm Dk Dv Pm Pk Pv Pbody.
  assert (Hm' : this m' = with_currentServerMode (this m) default).
  { unfold m'. rewrite middleware_route, (update_not_configured m G). simpl.
    rewrite route_run. cbv zeta. rewrite Dapi, andb_false_r, Dm, Dk, Dv. simpl.
    rewrite propagate_run. reflexivity. }
  split; [rewrite Hm'; reflexivity|].
  rewrite middleware_route, update_not_configured; [|simpl; rewrite Hm'; exact G].
  simpl. rewrite route_run. cbv zeta. simpl.
  unfold isServerInMaintenanceMode, isApiRequest, isMaintenanceRequest, keyRejected
    in *.
  rewrite Hm'. simpl. rewrite Pm, Pk, Pv. simpl. rewrite propagate_run. simpl.
  rewrite ?Hm', ?Pbody. unfold with_maintenanceResponseOptions, with_currentServerMode.
  simpl. destruct (this m); simpl in *. subst. reflexivity.
Qed.

(** X17. An activation reaches the other replicas through the store. If
    reading the store after a write returns the state written, then once a
    gate with the write function has processed an authorized POST, a second
    gate that reads the same store and whose local state is past its TTL
    adopts maintenance mode and the effective response options on its next
    request, and blocks that request if its URL contains the API base
    path. *)
Theorem activation_reaches_other_replicas
        (post request2 : Request.t B) (mA mB : Machine B S) setExternal getExternal :
  let mA1 := snd (updateLocalMaintenanceState mA) in
  let effective :=
    match Request.body post with
    | Some o => Some o
    | None => maintenanceResponseOptions (this mA1)
    end in
  let mB1 := snd (updateLocalMaintenanceState mB) in
  setExternalMaintenanceState (this mA) = Some setExternal ->
  getExternalMaintenanceState (this mB) = Some getExternal ->
  (forall state s, fst (getExternal (setExternal state s)) = Some state) ->
  isMaintenanceRequest RegExp_test (this mA) post = Some true ->
  keyRejected (this mA) post = false ->
  Request.method post = "POST" ->
  isServerInMaintenanceMode (this mA1) && isApiRequest (this mA) post = false ->
  store (env mB) = store (env (snd (middleware RegExp_test post mA))) ->
  lastStateUpdateTimestamp (this mB) + localMaintenanceStateTTL (this mB)
  < clock (env mB) (reads (env mB)) ->
  currentServerMode (this mB1) = maintenance
  /\ maintenanceResponseOptions (this mB1) = effective
  /\ (isApiRequest (this mB) request2 = true ->
      middleware RegExp_test request2 mB = (blockedResponse (this mB1), mB1)).
Proof.
  intros mA1 effective mB1 Hset Hget Contract Hm Hk Hv Hb Hstore Hdue.
  assert (R := POST_run post mA Hb Hm Hk Hv). cbv zeta in R. fold mA1 in R.
  rewrite propagate_run in R. simpl in R.
  destruct (update_config mA) as (_ & _ & _ & _ & _ & Hs). cbv zeta in Hs.
  fold mA1 in Hs. rewrite Hs, Hset in R. rewrite R in Hstore. simpl in Hstore.
  assert (Dt : (lastStateUpdateTimestamp (this mB) + localMaintenanceStateTTL (this mB)
                <? clock (env mB) (reads (env mB))) = true) by (apply Z.ltb_lt; exact Hdue).
  destruct (getExternal (store (env mB))) as [r store'] eqn:E.
  assert (Hr : r = Some (MaintenanceState.make maintenance effective)).
  { pose proof (Contract
                  (getLocalMaintenanceState
                     (with_maintenanceResponseOptions
                        (with_currentServerMode (this mA1) maintenance) effective))
                  (store (env mA1))) as C.
    unfold effective in C. rewrite <- Hstore, E in C. simpl in C. exact C. }
  subst r. assert (U := update_applied mB _ _ _ Hget Dt E).
  assert (H1 : currentServerMode (this mB1) = maintenance)
    by (unfold mB1; rewrite U; reflexivity).
  split; [exact H1|]. split; [unfold mB1; rewrite U; reflexivity|].
  intros Hurl. apply blocked_run; [exact H1 | exact Hurl].
Qed.

(** X18. A freshly constructed gate without a read function blocks
    nothing, whatever its options and whatever the request: no response
    carries a stored body and no read of the status code fails, until an
    activation is posted. *)
Theorem fresh_gate_never_blocks
        (options : ExpressMaintenanceOptions.t B S) (now : Z)
        (request : Request.t B) (e : Env B S) :
  ExpressMaintenanceOptions.getExternalMaintenanceState options = None ->
  fst (middleware RegExp_test request (mkMachine (constructor options now) e))
  <> Throw TypeError
  /\ forall status b,
      fst (middleware RegExp_test request (mkMachine (constructor options now) e))
      <> Normal (Responded status (JsonBody b)).
Proof.
  intros G.
  assert (U : updateLocalMaintenanceState (mkMachine (constructor options now) e)
              = (Normal tt, mkMachine (constructor options now) e))
    by (apply update_not_configured; exact G).
  split.
  - rewrite middleware_route, U, route_run. cbv zeta. simpl.
    repeat match goal with
           | |- context [match ?x with _ => _ end] => destruct x
           end; simpl; discriminate.
  - apply default_mode_not_blocked. rewrite U. reflexivity.
Qed.

End Properties.

(** ** Concrete runs *)

Import Examples.

(** A gate with a read function, last refreshed at 0 with the default TTL of
    60000: one millisecond past the TTL the store is read once, one
    millisecond before it is not. *)
Lemma refresh_read_iff_TTL_exceeded_witness :
  getExternalMaintenanceState (gate None true false default None) = Some readStore
  /\ readCount (calls (env (snd (handle (send "GET" "/home")
                                       (gate None true false default None)
                                       (world 60001 None))))) = 1%nat
  /\ readCount (calls (env (snd (handle (send "GET" "/home")
                                       (gate None true false default None)
                                       (world 59999 None))))) = 0%nat.
Proof.
  split; [reflexivity|]. split.
  - apply (refresh_read_iff_TTL_exceeded RegExp_test_literal (send "GET" "/home")
             (mkMachine (gate None true false default None) (world 60001 None))
             readStore); [reflexivity | cbn; lia].
  - apply (refresh_read_iff_TTL_exceeded RegExp_test_literal (send "GET" "/home")
             (mkMachine (gate None true false default None) (world 59999 None))
             readStore); [reflexivity | cbn; lia].
Defined.

(** C1 as stated fails when the elapsed time equals the TTL: the claim has
    the read function invoked exactly once there, the handler does not
    invoke it (line 112 compares with a strict [<]). *)
Lemma refresh_not_read_at_exactly_TTL :
  getExternalMaintenanceState (gate None true false default None) = Some readStore
  /\ clock (world 60000 None) (reads (world 60000 None))
     - lastStateUpdateTimestamp (gate None true false default None)
     = localMaintenanceStateTTL (gate None true false default None)
  /\ readCount (calls (env (snd (handle (send "GET" "/home")
                                       (gate None true false default None)
                                       (world 60000 None))))) = 0%nat
  /\ ~ (localMaintenanceStateTTL (gate None true false default None)
        <= clock (world 60000 None) (reads (world 60000 None))
           - lastStateUpdateTimestamp (gate None true false default None) ->
        readCount (calls (env (snd (handle (send "GET" "/home")
                                          (gate None true false default None)
                                          (world 60000 None))))) = 1%nat).
Proof.
  repeat split; try reflexivity.
  intros H. assert (L : 60000 <= 60000 - 0) by lia.
  specialize (H L). vm_compute in H. discriminate.
Qed.

(** The store answers nothing past the TTL: the local state is left alone
    and the next request, one millisecond later, reads the store again. *)
Lemma empty_refresh_is_retried_witness :
  getExternalMaintenanceState (gate None true false maintenance (Some down))
  = Some readStore
  /\ lastStateUpdateTimestamp (gate None true false maintenance (Some down))
     + localMaintenanceStateTTL (gate None true false maintenance (Some down))
     < clock (world 60001 None) (reads (world 60001 None))
  /\ readStore (store (world 60001 None)) = (None, None)
  /\ this (snd (handle (send "GET" "/home")
                       (gate None true false maintenance (Some down))
                       (world 60001 None)))
     = gate None true false maintenance (Some down)
  /\ readCount
       (calls (env (snd (handle (send "GET" "/home")
                                (this (snd (handle (send "GET" "/home")
                                                   (gate None true false maintenance
                                                         (Some down))
                                                   (world 60001 None))))
                                (world 60002 None))))) = 1%nat.
Proof.
  split; [reflexivity|]. split; [cbn; lia|]. split; [reflexivity|].
  split; [reflexivity|].
  apply (empty_refresh_is_retried RegExp_test_literal (send "GET" "/home")
           (mkMachine (gate None true false maintenance (Some down)) (world 60001 None))
           readStore None);
    [reflexivity | cbn; lia | reflexivity | cbn; lia].
Defined.


(** In maintenance mode a request to [/api/maintenance] matches both the API
    base path and the management path; it gets the blocked response, and a
    DELETE sent there changes nothing. *)
Lemma blocking_precedes_management_witness :
  currentServerMode
    (this (snd (updateLocalMaintenanceState
                  (mkMachine (gate None false true maintenance (Some down))
                             (world 5 None))))) = maintenance
  /\ includes (Request.path (send "DELETE" "/api/maintenance")) "/api" = true
  /\ isMaintenanceRequest RegExp_test_literal
       (gate None false true maintenance (Some down))
       (send "DELETE" "/api/maintenance") = Some true
  /\ handle (send "DELETE" "/api/maintenance")
            (gate None false true maintenance (Some down)) (world 5 None)
     = (Normal (Responded 503 (JsonBody [("msg", "down")])),
        mkMachine (gate None false true maintenance (Some down)) (world 5 None)).
Proof.
  split; [reflexivity|]. split; [reflexivity|]. split; [reflexivity|].
  apply (blocking_precedes_management RegExp_test_literal
           (send "DELETE" "/api/maintenance")
           (mkMachine (gate None false true maintenance (Some down)) (world 5 None)));
    reflexivity.
Defined.

Lemma protected_request_is_blocked_witness :
  currentServerMode
    (this (snd (updateLocalMaintenanceState
                  (mkMachine (gate None false false maintenance (Some down))
                             (world 5 None))))) = maintenance
  /\ includes (Request.path (send "GET" "/api/anything")) "/api" = true
  /\ fst (handle (send "GET" "/api/anything")
                 (gate None false false maintenance (Some down)) (world 5 None))
     = Normal (Responded 503 (JsonBody [("msg", "down")])).
Proof.
  split; [reflexivity|]. split; [reflexivity|].
  apply (protected_request_is_blocked RegExp_test_literal (send "GET" "/api/anything")
           (mkMachine (gate None false false maintenance (Some down)) (world 5 None))
           down);
    reflexivity.
Defined.

(** [/home?next=/api]: the path does not contain the base path, the query
    string does, and the request is blocked. *)
Lemma query_string_match_is_blocked_witness :
  includes (Request.path (send "GET" "/home?next=/api")) "/api" = false
  /\ includes (search (Request.url (send "GET" "/home?next=/api"))) "/api" = true
  /\ handle (send "GET" "/home?next=/api")
            (gate None false false maintenance (Some down)) (world 5 None)
     = (Normal (Responded 503 (JsonBody [("msg", "down")])),
        mkMachine (gate None false false maintenance (Some down)) (world 5 None)).
Proof.
  split; [reflexivity|]. split; [reflexivity|].
  apply (query_string_match_is_blocked RegExp_test_literal (send "GET" "/home?next=/api")
           (mkMachine (gate None false false maintenance (Some down)) (world 5 None))
           down);
    reflexivity.
Defined.

Lemma unrelated_request_passes_through_witness :
  includes (Request.url (send "GET" "/home?tab=2")) "/api" = false
  /\ isMaintenanceRequest RegExp_test_literal
       (gate None false false maintenance (Some down)) (send "GET" "/home?tab=2")
     = Some false
  /\ fst (handle (send "GET" "/home?tab=2")
                 (gate None false false maintenance (Some down)) (world 5 None))
     = Normal NextCalled.
Proof.
  split; [reflexivity|]. split; [reflexivity|]. unfold handle.
  rewrite (unrelated_request_passes_through RegExp_test_literal
             (send "GET" "/home?tab=2")
             (mkMachine (gate None false false maintenance (Some down)) (world 5 None)));
    reflexivity.
Defined.

(** C7 as stated fails on [/home?next=/api] in maintenance mode: the path
    [/home] neither contains [/api] nor ends with [/maintenance], yet the
    request is blocked instead of passed through, because line 122 searches
    [request.url]. *)
Lemma query_string_defeats_passthrough :
  Request.path (send "GET" "/home?next=/api") = "/home"
  /\ includes (Request.path (send "GET" "/home?next=/api")) "/api" = false
  /\ endsWith (Request.path (send "GET" "/home?next=/api")) "/maintenance" = false
  /\ isMaintenanceRequest RegExp_test_literal
       (gate None false false maintenance (Some down)) (send "GET" "/home?next=/api")
     = Some false
  /\ fst (handle (send "GET" "/home?next=/api")
                 (gate None false false maintenance (Some down)) (world 5 None))
     = Normal (Responded 503 (JsonBody [("msg", "down")]))
  /\ fst (handle (send "GET" "/home?next=/api")
                 (gate None false false maintenance (Some down)) (world 5 None))
     <> Normal NextCalled.
Proof. repeat split; try reflexivity. vm_compute. discriminate. Qed.

(** A keyed POST with the body [{statusCode: 503, body: {msg: "down"}}] on a
    fresh gate with a write function, then a request to [/api/anything]. *)
Lemma authorized_POST_activates_witness :
  isMaintenanceRequest RegExp_test_literal (gate (Some "k") false true default None)
                       postWithKey = Some true
  /\ keyRejected (gate (Some "k") false true default None) postWithKey = false
  /\ Request.method postWithKey = "POST"
  /\ currentServerMode
       (this (snd (handle postWithKey (gate (Some "k") false true default None)
                          (world 5 None)))) = maintenance
  /\ maintenanceResponseOptions
       (this (snd (handle postWithKey (gate (Some "k") false true default None)
                          (world 5 None)))) = Some down
  /\ calls (env (snd (handle postWithKey (gate (Some "k") false true default None)
                             (world 5 None))))
     = [SetExternal (MaintenanceState.make maintenance (Some down))]
  /\ fst (handle postWithKey (gate (Some "k") false true default None) (world 5 None))
     = Normal (Responded 200 (JsonModeReport "Server in maintenance mode now" (Some down)))
  /\ fst (handle (send "GET" "/api/anything")
                 (this (snd (handle postWithKey
                                    (gate (Some "k") false true default None)
                                    (world 5 None))))
                 (world 9 storedMaintenance))
     = Normal (Responded 503 (JsonBody [("msg", "down")])).
Proof.
  split; [reflexivity|]. split; [reflexivity|]. split; [reflexivity|].
  edestruct (authorized_POST_activates RegExp_test_literal postWithKey
               (mkMachine (gate (Some "k") false true default None) (world 5 None)))
    as (H1 & H2 & H3 & _ & H5 & H6);
    [reflexivity | reflexivity | reflexivity | reflexivity |].
  split; [exact H1|]. split; [exact H2|]. split; [exact H3|]. split; [exact H5|].
  edestruct (H6 (send "GET" "/api/anything") (world 9 storedMaintenance)) as [_ H7];
    [reflexivity | reflexivity | reflexivity |].
  exact (H7 down eq_refl).
Defined.

(** C4 as stated fails in two ways. First, an authorized POST to
    [/api/maintenance] while the gate is in maintenance mode is intercepted
    by the blocking check: the answer is the blocked response, not the 200
    report, the posted body does not replace the response options and the
    configured write function is not called. Second, after an activation a
    refresh from the store can put the gate back in default mode, and the
    next request to [/api/anything] is passed through. *)
Lemma POST_not_always_activating :
  (isMaintenanceRequest RegExp_test_literal
     (gate None false true maintenance (Some down))
     (sendBody "POST" "/api/maintenance" upgrading) = Some true
   /\ keyRejected (gate None false true maintenance (Some down))
                  (sendBody "POST" "/api/maintenance" upgrading) = false
   /\ handle (sendBody "POST" "/api/maintenance" upgrading)
             (gate None false true maintenance (Some down)) (world 5 None)
      = (Normal (Responded 503 (JsonBody [("msg", "down")])),
         mkMachine (gate None false true maintenance (Some down)) (world 5 None))
   /\ fst (handle (sendBody "POST" "/api/maintenance" upgrading)
                  (gate None false true maintenance (Some down)) (world 5 None))
      <> Normal (Responded 200 (JsonModeReport "Server in maintenance mode now"
                                               (Some upgrading)))
   /\ maintenanceResponseOptions
        (this (snd (handle (sendBody "POST" "/api/maintenance" upgrading)
                           (gate None false true maintenance (Some down))
                           (world 5 None))))
      <> Some upgrading
   /\ writeCount
        (calls (env (snd (handle (sendBody "POST" "/api/maintenance" upgrading)
                                 (gate None false true maintenance (Some down))
                                 (world 5 None))))) = 0%nat)
  /\ (fst (handle (sendBody "POST" "/maintenance" down)
                  (gate None true false default None) (world 5 None))
      = Normal (Responded 200 (JsonModeReport "Server in maintenance mode now"
                                              (Some down)))
      /\ includes (Request.path (send "GET" "/api/anything")) "/api" = true
      /\ fst (handle (send "GET" "/api/anything")
                     (this (snd (handle (sendBody "POST" "/maintenance" down)
                                        (gate None true false default None)
                                        (world 5 None))))
                     (world 70000 storedDefault))
         = Normal NextCalled
      /\ fst (handle (send "GET" "/api/anything")
                     (this (snd (handle (sendBody "POST" "/maintenance" down)
                                        (gate None true false default None)
                                        (world 5 None))))
                     (world 70000 storedDefault))
         <> Normal (Responded 503 (JsonBody [("msg", "down")]))).
Proof.
  repeat split; try reflexivity; vm_compute; discriminate.
Qed.

(** A GET to the management endpoint with a wrong key, on a gate whose key
    is [secret]. *)
Lemma rejected_key_is_401_witness :
  accessKey (gate (Some "secret") false true maintenance (Some down)) = Some "secret"
  /\ "secret" <> ""
  /\ Request.query_accessKey getWithWrongKey <> QString "secret"
  /\ isMaintenanceRequest RegExp_test_literal
       (gate (Some "secret") false true maintenance (Some down)) getWithWrongKey
     = Some true
  /\ handle getWithWrongKey (gate (Some "secret") false true maintenance (Some down))
            (world 5 None)
     = (Normal (Responded 401 (JsonMessage "You not authorized to perform this action")),
        mkMachine (gate (Some "secret") false true maintenance (Some down))
                  (world 5 None)).
Proof.
  split; [reflexivity|]. split; [discriminate|]. split; [discriminate|].
  split; [reflexivity|].
  apply (rejected_key_is_401 RegExp_test_literal getWithWrongKey
           (mkMachine (gate (Some "secret") false true maintenance (Some down))
                      (world 5 None))
           "secret");
    [reflexivity | discriminate | discriminate | reflexivity | reflexivity].
Defined.

(** C5 as stated fails in two ways. First, a keyless request to
    [/api/maintenance] while the gate is in maintenance mode is intercepted
    by the blocking check and answered with the blocked response, not 401.
    Second, the refresh step runs before the key is checked: a keyless
    request that is answered 401 can still leave the gate with another
    mode, other response options and a new time of last refresh. Third, an
    access key configured as the empty string is falsy at line 43, and a
    keyless request is let in. *)
Lemma rejected_key_not_always_401_nor_stateless :
  (accessKey (gate (Some "secret") false false maintenance (Some down)) = Some "secret"
   /\ isMaintenanceRequest RegExp_test_literal
        (gate (Some "secret") false false maintenance (Some down))
        (send "GET" "/api/maintenance") = Some true
   /\ Request.query_accessKey (send "GET" "/api/maintenance" : Request.t Body)
      = QUndefined
   /\ fst (handle (send "GET" "/api/maintenance")
                  (gate (Some "secret") false false maintenance (Some down))
                  (world 5 None))
      = Normal (Responded 503 (JsonBody [("msg", "down")]))
   /\ fst (handle (send "GET" "/api/maintenance")
                  (gate (Some "secret") false false maintenance (Some down))
                  (world 5 None))
      <> Normal (Responded 401
                   (JsonMessage "You not authorized to perform this action")))
  /\ (accessKey (gate (Some "secret") true false default None) = Some "secret"
      /\ isMaintenanceRequest RegExp_test_literal
           (gate (Some "secret") true false default None) (send "GET" "/maintenance")
         = Some true
      /\ fst (handle (send "GET" "/maintenance")
                     (gate (Some "secret") true false default None)
                     (world 70000 storedMaintenance))
         = Normal (Responded 401
                     (JsonMessage "You not authorized to perform this action"))
      /\ currentServerMode (gate (Some "secret") true false default None) = default
      /\ currentServerMode
           (this (snd (handle (send "GET" "/maintenance")
                              (gate (Some "secret") true false default None)
                              (world 70000 storedMaintenance)))) = maintenance
      /\ maintenanceResponseOptions (gate (Some "secret") true false default None)
         = None
      /\ maintenanceResponseOptions
           (this (snd (handle (send "GET" "/maintenance")
                              (gate (Some "secret") true false default None)
                              (world 70000 storedMaintenance)))) = Some down
      /\ lastStateUpdateTimestamp (gate (Some "secret") true false default None) = 0
      /\ lastStateUpdateTimestamp
           (this (snd (handle (send "GET" "/maintenance")
                              (gate (Some "secret") true false default None)
                              (world 70000 storedMaintenance)))) = 70000)
  /\ (accessKey (gate (Some "") false false default None) = Some ""
      /\ fst (handle (send "GET" "/maintenance")
                     (gate (Some "") false false default None) (world 5 None))
         = Normal (Responded 200 (JsonMessage "Server in default mode now"))).
Proof.
  repeat split; try reflexivity; vm_compute; discriminate.
Qed.

(** A DELETE on an active gate with a write function, then two requests:
    one to [/api/anything], passed through although the response options
    are still set, and one to the management endpoint, not blocked either. *)
Lemma authorized_DELETE_deactivates_witness :
  isMaintenanceRequest RegExp_test_literal
    (gate None false true maintenance (Some down)) (send "DELETE" "/maintenance")
  = Some true
  /\ keyRejected (gate None false true maintenance (Some down))
                 (send "DELETE" "/maintenance") = false
  /\ this (snd (handle (send "DELETE" "/maintenance")
                       (gate None false true maintenance (Some down)) (world 5 None)))
     = gate None false true default (Some down)
  /\ calls (env (snd (handle (send "DELETE" "/maintenance")
                             (gate None false true maintenance (Some down))
                             (world 5 None))))
     = [SetExternal (MaintenanceState.make default (Some down))]
  /\ fst (handle (send "DELETE" "/maintenance")
                 (gate None false true maintenance (Some down)) (world 5 None))
     = Normal (Responded 200 (JsonModeReport "Server in default mode now" (Some down)))
  /\ handle (send "GET" "/api/anything")
            (this (snd (handle (send "DELETE" "/maintenance")
                               (gate None false true maintenance (Some down))
                               (world 5 None))))
            (world 9 None)
     = (Normal NextCalled,
        mkMachine (gate None false true default (Some down)) (world 9 None)).
Proof.
  split; [reflexivity|]. split; [reflexivity|].
  edestruct (authorized_DELETE_deactivates RegExp_test_literal
               (send "DELETE" "/maintenance")
               (mkMachine (gate None false true maintenance (Some down)) (world 5 None)))
    as (_ & _ & H3 & _ & H5 & H6);
    [reflexivity | reflexivity | reflexivity | reflexivity |].
  split; [reflexivity|]. split; [exact H3|]. split; [exact H5|].
  edestruct (H6 (send "GET" "/api/anything") (world 9 None)) as [_ H7];
    [reflexivity|].
  apply H7. reflexivity.
Defined.

(** C6 as stated fails in three ways. First, an authorized DELETE to
    [/api/maintenance] while the gate is in maintenance mode is intercepted
    by the blocking check: the gate stays in maintenance mode and nothing is
    written. Second, after a deactivation a refresh from the store can turn
    maintenance back on, and the next request to [/api/anything] is blocked.
    Third, a later request whose path contains the API base path and that
    is itself a management request is answered as such rather than passed
    through. *)
Lemma DELETE_not_always_deactivating :
  (isMaintenanceRequest RegExp_test_literal
     (gate None false true maintenance (Some down)) (send "DELETE" "/api/maintenance")
   = Some true
   /\ keyRejected (gate None false true maintenance (Some down))
                  (send "DELETE" "/api/maintenance") = false
   /\ handle (send "DELETE" "/api/maintenance")
             (gate None false true maintenance (Some down)) (world 5 None)
      = (Normal (Responded 503 (JsonBody [("msg", "down")])),
         mkMachine (gate None false true maintenance (Some down)) (world 5 None))
   /\ currentServerMode
        (this (snd (handle (send "DELETE" "/api/maintenance")
                           (gate None false true maintenance (Some down))
                           (world 5 None)))) <> default)
  /\ (fst (handle (send "DELETE" "/maintenance")
                  (gate None true false maintenance (Some down)) (world 5 None))
      = Normal (Responded 200 (JsonModeReport "Server in default mode now" (Some down)))
      /\ fst (handle (send "GET" "/api/anything")
                     (this (snd (handle (send "DELETE" "/maintenance")
                                        (gate None true false maintenance (Some down))
                                        (world 5 None))))
                     (world 70000 storedMaintenance))
         = Normal (Responded 503 (JsonBody [("msg", "down")]))
      /\ fst (handle (send "GET" "/api/anything")
                     (this (snd (handle (send "DELETE" "/maintenance")
                                        (gate None true false maintenance (Some down))
                                        (world 5 None))))
                     (world 70000 storedMaintenance))
         <> Normal NextCalled)
  /\ (includes (Request.path (send "GET" "/api/maintenance")) "/api" = true
      /\ fst (handle (send "GET" "/api/maintenance")
                     (this (snd (handle (send "DELETE" "/maintenance")
                                        (gate None false false maintenance (Some down))
                                        (world 5 None))))
                     (world 9 None))
         = Normal (Responded 200 (JsonMessage "Server in default mode now"))
      /\ fst (handle (send "GET" "/api/maintenance")
                     (this (snd (handle (send "DELETE" "/maintenance")
                                        (gate None false false maintenance (Some down))
                                        (world 5 None))))
                     (world 9 None))
         <> Normal NextCalled).
Proof.
  repeat split; try reflexivity; vm_compute; discriminate.
Qed.

(** A POST activation with a body, then a GET to the management endpoint:
    the GET names the mode and leaves mode and options as the POST set
    them. *)
Lemma GET_after_POST_reports_mode_witness :
  isMaintenanceRequest RegExp_test_literal (gate None false true default None)
                       (sendBody "POST" "/maintenance" down) = Some true
  /\ isMaintenanceRequest RegExp_test_literal (gate None false true default None)
                          (send "GET" "/maintenance") = Some true
  /\ fst (handle (send "GET" "/maintenance")
                 (this (snd (handle (sendBody "POST" "/maintenance" down)
                                    (gate None false true default None) (world 5 None))))
                 (world 9 None))
     = Normal (Responded 200 (JsonMessage "Server in maintenance mode now"))
  /\ currentServerMode
       (this (snd (handle (send "GET" "/maintenance")
                          (this (snd (handle (sendBody "POST" "/maintenance" down)
                                             (gate None false true default None)
                                             (world 5 None))))
                          (world 9 None)))) = maintenance
  /\ maintenanceResponseOptions
       (this (snd (handle (send "GET" "/maintenance")
                          (this (snd (handle (sendBody "POST" "/maintenance" down)
                                             (gate None false true default None)
                                             (world 5 None))))
                          (world 9 None)))) = Some down.
Proof.
  split; [reflexivity|]. split; [reflexivity|].
  edestruct (GET_after_POST_reports_mode RegExp_test_literal
               (sendBody "POST" "/maintenance" down) (send "GET" "/maintenance")
               (mkMachine (gate None false true default None) (world 5 None))
               (world 9 None))
    as (_ & H);
    [reflexivity | reflexivity | reflexivity | reflexivity
     | reflexivity | reflexivity | reflexivity | reflexivity |].
  apply H. reflexivity.
Defined.

(** C8 as stated fails in two ways. First, the GET response carries the
    mode only (lines 51-53): after two activations that set different
    response options, the two GET responses are the same, so the response
    does not reflect the options last set. Second, after an activation a GET
    to [/api/maintenance] is intercepted by the blocking check and is
    answered with the blocked response instead of a report. *)
Lemma GET_does_not_report_options :
  (maintenanceResponseOptions
     (this (snd (handle (sendBody "POST" "/maintenance" down)
                        (gate None false false default None) (world 5 None))))
   = Some down
   /\ maintenanceResponseOptions
        (this (snd (handle (sendBody "POST" "/maintenance" upgrading)
                           (gate None false false default None) (world 5 None))))
      = Some upgrading
   /\ Some down <> Some upgrading
   /\ fst (handle (send "GET" "/maintenance")
                  (this (snd (handle (sendBody "POST" "/maintenance" down)
                                     (gate None false false default None)
                                     (world 5 None))))
                  (world 9 None))
      = Normal (Responded 200 (JsonMessage "Server in maintenance mode now"))
   /\ fst (handle (send "GET" "/maintenance")
                  (this (snd (handle (sendBody "POST" "/maintenance" upgrading)
                                     (gate None false false default None)
                                     (world 5 None))))
                  (world 9 None))
      = Normal (Responded 200 (JsonMessage "Server in maintenance mode now")))
  /\ (fst (handle (sendBody "POST" "/api/maintenance" down)
                  (gate None false false default None) (world 5 None))
      = Normal (Responded 200 (JsonModeReport "Server in maintenance mode now"
                                              (Some down)))
      /\ isMaintenanceRequest RegExp_test_literal (gate None false false default None)
                              (send "GET" "/api/maintenance") = Some true
      /\ fst (handle (send "GET" "/api/maintenance")
                     (this (snd (handle (sendBody "POST" "/api/maintenance" down)
                                        (gate None false false default None)
                                        (world 5 None))))
                     (world 9 None))
         = Normal (Responded 503 (JsonBody [("msg", "down")]))).
Proof.
  repeat split; try reflexivity; vm_compute; discriminate.
Qed.

(** ** Concrete runs of the further properties *)

Lemma unsupported_verb_is_405_witness :
  isMaintenanceRequest RegExp_test_literal (gate None false true default None)
                       (send "PUT" "/maintenance") = Some true
  /\ keyRejected (gate None false true default None) (send "PUT" "/maintenance") = false
  /\ handle (send "PUT" "/maintenance") (gate None false true default None) (world 5 None)
     = (Normal (Responded 405 (JsonMessage "PUT is not allowed for this endpoint")),
        mkMachine (gate None false true default None) (world 5 None)).
Proof.
  split; [reflexivity|]. split; [reflexivity|].
  apply (unsupported_verb_is_405 RegExp_test_literal (send "PUT" "/maintenance")
           (mkMachine (gate None false true default None) (world 5 None)));
    first [reflexivity | discriminate].
Defined.

Lemma state_changes_only_by_POST_or_DELETE_witness :
  (Request.method (send "GET" "/maintenance" : Request.t Body) <> "POST"
   /\ Request.method (send "GET" "/maintenance" : Request.t Body) <> "DELETE")
  /\ snd (handle (send "GET" "/maintenance")
                 (gate None false true maintenance (Some down)) (world 5 None))
     = mkMachine (gate None false true maintenance (Some down)) (world 5 None).
Proof.
  split; [split; discriminate|].
  apply (state_changes_only_by_POST_or_DELETE RegExp_test_literal
           (send "GET" "/maintenance")
           (mkMachine (gate None false true maintenance (Some down)) (world 5 None))).
  right. right. right. split; discriminate.
Defined.

Lemma invalid_pattern_fails_unblocked_requests_witness :
  RegExp_test_literal (url (activeGateAt (Some "/admin(") None) ++ "$")
                      (Request.path (send "GET" "/home")) = None
  /\ middleware RegExp_test_literal (send "GET" "/home")
       (mkMachine (activeGateAt (Some "/admin(") None) (world 5 None))
     = (Throw SyntaxError,
        mkMachine (activeGateAt (Some "/admin(") None) (world 5 None)).
Proof.
  split; [reflexivity|].
  apply (invalid_pattern_fails_unblocked_requests RegExp_test_literal
           (send "GET" "/home")
           (mkMachine (activeGateAt (Some "/admin(") None) (world 5 None)));
    reflexivity.
Defined.

Lemma no_reader_no_refresh_witness :
  getExternalMaintenanceState (gate None false true default None) = None
  /\ reads (env (snd (handle (sendBody "POST" "/maintenance" down)
                             (gate None false true default None) (world 70000 None))))
     = 0%nat.
Proof.
  split; [reflexivity|].
  apply (no_reader_no_refresh RegExp_test_literal (sendBody "POST" "/maintenance" down)
           (mkMachine (gate None false true default None) (world 70000 None)));
    reflexivity.
Defined.

(** A gate in default mode reads, past its TTL, a store that holds an
    activation: the very request that triggered the read is blocked. *)
Lemma refresh_takes_effect_at_once_witness :
  getExternalMaintenanceState (gate None true false default None) = Some readStore
  /\ readStore (store (world 70000 storedMaintenance))
     = (storedMaintenance, storedMaintenance)
  /\ currentServerMode (gate None true false default None) = default
  /\ fst (handle (send "GET" "/api/anything") (gate None true false default None)
                 (world 70000 storedMaintenance))
     = Normal (Responded 503 (JsonBody [("msg", "down")])).
Proof.
  split; [reflexivity|]. split; [reflexivity|]. split; [reflexivity|].
  edestruct (refresh_takes_effect_at_once RegExp_test_literal
               (send "GET" "/api/anything")
               (mkMachine (gate None true false default None)
                          (world 70000 storedMaintenance))
               readStore (MaintenanceState.make maintenance (Some down))
               storedMaintenance)
    as (_ & _ & _ & H & _);
    [reflexivity | cbn; lia | reflexivity |].
  apply H; reflexivity.
Defined.

(** After the refresh at 70000 a request at 130000 does not read the store;
    the window is counted from 70000, not from the previous stamp 0. *)
Lemma refresh_opens_new_TTL_window_witness :
  lastStateUpdateTimestamp (gate None true false default None)
  + localMaintenanceStateTTL (gate None true false default None)
  < clock (world 70000 storedMaintenance) (reads (world 70000 storedMaintenance))
  /\ readCount
       (calls (env (snd (handle (send "GET" "/home")
                                (this (snd (handle (send "GET" "/home")
                                                   (gate None true false default None)
                                                   (world 70000 storedMaintenance))))
                                (world 130000 storedDefault))))) = 0%nat.
Proof.
  split; [cbn; lia|].
  edestruct (refresh_opens_new_TTL_window RegExp_test_literal (send "GET" "/home")
               (mkMachine (gate None true false default None)
                          (world 70000 storedMaintenance))
               readStore (MaintenanceState.make maintenance (Some down))
               storedMaintenance)
    as (_ & H);
    [reflexivity | cbn; lia | reflexivity |].
  apply (H (send "GET" "/home") (world 130000 storedDefault)). cbn. lia.
Defined.

Lemma timestamp_moves_only_on_applied_refresh_witness :
  lastStateUpdateTimestamp
    (this (snd (handle (send "GET" "/home") (gate None true false default None)
                       (world 70000 storedMaintenance))))
  <> lastStateUpdateTimestamp (gate None true false default None)
  /\ exists getExternal state store',
      getExternalMaintenanceState (gate None true false default None)
      = Some getExternal
      /\ lastStateUpdateTimestamp (gate None true false default None)
         + localMaintenanceStateTTL (gate None true false default None)
         < clock (world 70000 storedMaintenance) (reads (world 70000 storedMaintenance))
      /\ getExternal (store (world 70000 storedMaintenance)) = (Some state, store').
Proof.
  split; [vm_compute; discriminate|].
  apply (timestamp_moves_only_on_applied_refresh RegExp_test_literal
           (send "GET" "/home")
           (mkMachine (gate None true false default None)
                      (world 70000 storedMaintenance))).
  vm_compute. discriminate.
Defined.

Lemma empty_base_path_blocks_everything_witness :
  apiBasePath (activeGateAt None (Some "")) = ""
  /\ handle (send "DELETE" "/maintenance") (activeGateAt None (Some "")) (world 5 None)
     = (Normal (Responded 503 (JsonBody [("msg", "down")])),
        mkMachine (activeGateAt None (Some "")) (world 5 None)).
Proof.
  split; [reflexivity|].
  apply (empty_base_path_blocks_everything RegExp_test_literal
           (send "DELETE" "/maintenance")
           (mkMachine (activeGateAt None (Some "")) (world 5 None)));
    reflexivity.
Defined.

(** A first activation without a body, then a request to the API. *)
Lemma bodyless_first_activation_breaks_blocking_witness :
  Request.body (send "POST" "/maintenance" : Request.t Body) = None
  /\ maintenanceResponseOptions (gate None false false default None) = None
  /\ fst (handle (send "POST" "/maintenance") (gate None false false default None)
                 (world 5 None))
     = Normal (Responded 200 (JsonModeReport "Server in maintenance mode now" None))
  /\ fst (handle (send "GET" "/api/anything")
                 (this (snd (handle (send "POST" "/maintenance")
                                    (gate None false false default None)
                                    (world 5 None))))
                 (world 9 None))
     = Throw TypeError.
Proof.
  split; [reflexivity|]. split; [reflexivity|].
  edestruct (bodyless_first_activation_breaks_blocking RegExp_test_literal
               (send "POST" "/maintenance") (send "GET" "/api/anything")
               (mkMachine (gate None false false default None) (world 5 None))
               (world 9 None))
    as (H1 & H2);
    [reflexivity | reflexivity | reflexivity | reflexivity
     | reflexivity | reflexivity | reflexivity | reflexivity |].
  split; [exact H1|]. unfold handle. rewrite H2. reflexivity.
Defined.

Lemma POST_is_idempotent_witness :
  isMaintenanceRequest RegExp_test_literal (gate None false true default None)
                       (sendBody "POST" "/maintenance" down) = Some true
  /\ this (snd (handle (sendBody "POST" "/maintenance" down)
                       (this (snd (handle (sendBody "POST" "/maintenance" down)
                                          (gate None false true default None)
                                          (world 5 None))))
                       (world 9 None)))
     = this (snd (handle (sendBody "POST" "/maintenance" down)
                         (gate None false true default None) (world 5 None))).
Proof.
  split; [reflexivity|].
  apply (POST_is_idempotent RegExp_test_literal (sendBody "POST" "/maintenance" down)
           (mkMachine (gate None false true default None) (world 5 None))
           (world 9 None));
    reflexivity.
Defined.

Lemma bodyless_POST_undoes_DELETE_witness :
  getExternalMaintenanceState (gate None false true maintenance (Some down)) = None
  /\ currentServerMode (gate None false true maintenance (Some down)) = maintenance
  /\ this (snd (handle (send "POST" "/maintenance")
                       (this (snd (handle (send "DELETE" "/maintenance")
                                          (gate None false true maintenance (Some down))
                                          (world 5 None))))
                       (world 9 None)))
     = gate None false true maintenance (Some down).
Proof.
  split; [reflexivity|]. split; [reflexivity|].
  apply (bodyless_POST_undoes_DELETE RegExp_test_literal
           (send "DELETE" "/maintenance") (send "POST" "/maintenance")
           (mkMachine (gate None false true maintenance (Some down)) (world 5 None))
           (world 9 None));
    reflexivity.
Defined.

(** Two gates on one store: the first, with the write function, is
    activated at time 5; the second, with the read function, handles its
    next request at 70000, past its TTL. *)
Lemma activation_reaches_other_replicas_witness :
  setExternalMaintenanceState (gate None false true default None) = Some writeStore
  /\ getExternalMaintenanceState (gate None true false default None) = Some readStore
  /\ (forall state s, fst (readStore (writeStore state s)) = Some state)
  /\ store (env (snd (handle (sendBody "POST" "/maintenance" down)
                             (gate None false true default None) (world 5 None))))
     = storedMaintenance
  /\ handle (send "GET" "/api/anything") (gate None true false default None)
            (world 70000 storedMaintenance)
     = (Normal (Responded 503 (JsonBody [("msg", "down")])),
        snd (updateLocalMaintenanceState
               (mkMachine (gate None true false default None)
                          (world 70000 storedMaintenance)))).
Proof.
  split; [reflexivity|]. split; [reflexivity|]. split; [reflexivity|].
  split; [reflexivity|].
  edestruct (activation_reaches_other_replicas RegExp_test_literal
               (sendBody "POST" "/maintenance" down) (send "GET" "/api/anything")
               (mkMachine (gate None false true default None) (world 5 None))
               (mkMachine (gate None true false default None)
                          (world 70000 storedMaintenance))
               writeStore readStore)
    as (_ & _ & H);
    [reflexivity | reflexivity | reflexivity | reflexivity | reflexivity
     | reflexivity | reflexivity | reflexivity | cbn; lia |].
  apply H. reflexivity.
Defined.

Lemma fresh_gate_never_blocks_witness :
  ExpressMaintenanceOptions.getExternalMaintenanceState writerOnly = None
  /\ fst (middleware RegExp_test_literal (send "GET" "/api/anything")
            (mkMachine (constructor writerOnly 0) (world 5 storedMaintenance)))
     <> Throw TypeError.
Proof.
  split; [reflexivity|].
  apply (fresh_gate_never_blocks RegExp_test_literal writerOnly 0
           (send "GET" "/api/anything") (world 5 storedMaintenance)).
  reflexivity.
Defined.
